(** * cdvae.pl_data.dataset: the crystal dataset facades

    A shallow embedding of [cdvae/pl_data/dataset.py]: the two dataset
    classes [CrystDataset] and [TensorCrystDataset], their constructors
    (the compute-or-load cache decision), [__len__], [__getitem__] and
    [__repr__].

    Python exceptions are values of [PyError]; a method is a computation
    in the monad [Py S], which threads a state [S] (the world for the
    constructors, the object for the methods) and either raises or
    returns.  Everything imported by the module (the preprocessing
    functions, pickle, the scaler, torch's conversions) is a field of the
    class [Collaborators]. *)

From Stdlib Require Import ZArith QArith Lia Ascii String.
From stdpp Require Import base option list strings gmap pretty.

Local Open Scope Z_scope.

(** ** Exceptions and the computation monad *)

Inductive PyError : Type :=
| IndexError                              (* list index out of range *)
| KeyError (key : string)                 (* missing dict key *)
| AttributeError (type attr : string)     (* 'type' object has no attribute 'attr' *)
| ValueError (msg : string)
| TypeError                               (* its text is not tracked *)
| FileNotFoundError (file : string)
| UnpicklingError (file : string)
| CollaboratorError (who msg : string).   (* raised inside an imported function *)

Definition Result (A : Type) : Type := PyError + A.

Definition Py (S A : Type) : Type := S → S * Result A.

Definition raise {S A} (e : PyError) : Py S A := λ s, (s, inl e).

Definition lift {S A} (r : Result A) : Py S A := λ s, (s, r).

Definition gets {S A} (f : S → A) : Py S A := λ s, (s, inr (f s)).

Definition modify {S} (f : S → S) : Py S unit := λ s, (f s, inr tt).

#[global] Instance Py_ret {S} : MRet (Py S) := λ A x s, (s, inr x).

#[global] Instance Py_bind {S} : MBind (Py S) := λ A B f m s,
  match m s with
  | (s', inr x) => f x s'
  | (s', inl e) => (s', inl e)
  end.

(** The outcome of running a computation, and the state it leaves. *)
Definition outcome {S A} (m : Py S A) (s : S) : Result A := (m s).2.

Definition final {S A} (m : Py S A) (s : S) : S := (m s).1.

Definition is_attribute_error (e : PyError) : bool :=
  match e with AttributeError _ _ => true | _ => false end.

Definition is_index_error (e : PyError) : bool :=
  match e with IndexError => true | _ => false end.

(** ** Python containers *)

(** [l[index]] on a Python list: a negative index counts from the end. *)
Definition list_getitem {A} (l : list A) (index : Z) : Result A :=
  let n := Z.of_nat (length l) in
  let i := if index <? 0 then index + n else index in
  if (i <? 0) || (n <=? i) then inl IndexError
  else match l !! Z.to_nat i with
       | Some x => inr x
       | None => inl IndexError
       end.

(** [d[key]] on a Python dict. *)
Definition dict_getitem {V} (d : gmap string V) (key : string) : Result V :=
  match d !! key with
  | Some v => inr v
  | None => inl (KeyError key)
  end.

(** ** Two-dimensional arrays

    A numpy array or torch tensor of shape [(length rows, ncols)].  The
    column count is kept apart from the rows, so that an array without
    rows still has a shape. *)

Record ndarray2 (A : Type) : Type := Ndarray2 {
  rows : list (list A);
  ncols : nat
}.
Arguments Ndarray2 {A} _ _.
Arguments rows {A} _.
Arguments ncols {A} _.

Definition nrows {A} (a : ndarray2 A) : nat := length (rows a).

Definition shape {A} (a : ndarray2 A) : nat * nat := (nrows a, ncols a).

Definition wf_array {A} (a : ndarray2 A) : Prop :=
  Forall (λ r, length r = ncols a) (rows a).

(** [a[i, j]] *)
Definition item {A} (a : ndarray2 A) (i j : nat) : option A :=
  rows a !! i ≫= λ r, r !! j.

Definition column {A} (a : ndarray2 A) (j : nat) : list A :=
  rows a ≫= λ r, option_list (r !! j).

(** [a.T] *)
Definition T {A} (a : ndarray2 A) : ndarray2 A :=
  {| rows := (λ j, column a j) <$> seq 0 (ncols a);
     ncols := nrows a |}.

(** [t.view(1, -1)] on a one-dimensional tensor. *)
Definition view_1_m1 {A} (t : list A) : ndarray2 A :=
  {| rows := [t]; ncols := length t |}.

Definition array_map {A B} (f : A → B) (a : ndarray2 A) : ndarray2 B :=
  {| rows := (λ r : list A, f <$> r) <$> rows a; ncols := ncols a |}.

(** ** Floating-point tensors

    What [torch.tensor] returns keeps track of its dtype: float32 for
    Python numbers, float64 for numpy's.  [Tensor1] is the flat contents
    of such a tensor, [Tensor2] a two-dimensional one. *)

Inductive Tensor1 (R R32 : Type) : Type :=
| Float32_1 (t : list R32)
| Float64_1 (t : list R).
Arguments Float32_1 {R R32} _.
Arguments Float64_1 {R R32} _.

Inductive Tensor2 (R R32 : Type) : Type :=
| Float32_2 (a : ndarray2 R32)
| Float64_2 (a : ndarray2 R).
Arguments Float32_2 {R R32} _.
Arguments Float64_2 {R R32} _.

(** [t.view(1, -1)] *)
Definition tensor_view_1_m1 {R R32} (t : Tensor1 R R32) : Tensor2 R R32 :=
  match t with
  | Float32_1 t => Float32_2 (view_1_m1 t)
  | Float64_1 t => Float64_2 (view_1_m1 t)
  end.

Definition tensor_shape {R R32} (a : Tensor2 R R32) : nat * nat :=
  match a with
  | Float32_2 a => shape a
  | Float64_2 a => shape a
  end.

Definition tensor_wf {R R32} (a : Tensor2 R R32) : Prop :=
  match a with
  | Float32_2 a => wf_array a
  | Float64_2 a => wf_array a
  end.

(** ** The data model *)

(** The tuple stored under ['graph_arrays'], in its positional order. *)
Record GraphArrays (R : Type) : Type := {
  ga_frac_coords : ndarray2 R;
  ga_atom_types : list Z;
  ga_lengths : list R;
  ga_angles : list R;
  ga_edge_indices : ndarray2 Z;
  ga_to_jimages : ndarray2 Z;
  ga_num_atoms : Z
}.
Arguments ga_frac_coords {R} _.
Arguments ga_atom_types {R} _.
Arguments ga_lengths {R} _.
Arguments ga_angles {R} _.
Arguments ga_edge_indices {R} _.
Arguments ga_to_jimages {R} _.
Arguments ga_num_atoms {R} _.

(** The values a cached record holds under its keys: the graph tuple, a
    Python float, a numpy float64 scalar (what a row of a pandas frame
    holds), a one-dimensional numpy float64 array, a string. *)
Inductive PyValue (R : Type) : Type :=
| VGraph (g : GraphArrays R)
| VFloat (x : R)
| VFloat64 (x : R)
| VArray (a : list R)
| VStr (s : string).
Arguments VGraph {R} _.
Arguments VFloat {R} _.
Arguments VFloat64 {R} _.
Arguments VArray {R} _.
Arguments VStr {R} _.

(** One processed crystal: a dict. *)
Abbreviation CachedRecord R := (gmap string (PyValue R)).

(** [torch_geometric.data.Data]; an attribute that was not passed to the
    constructor reads as [None]. *)
Record Data (R R32 : Type) : Type := {
  frac_coords : ndarray2 R32;
  atom_types : list Z;
  lengths : ndarray2 R32;
  angles : ndarray2 R32;
  edge_index : ndarray2 Z;
  to_jimages : ndarray2 Z;
  num_atoms : Z;
  num_bonds : Z;
  num_nodes : Z;
  y : option (Tensor2 R R32)
}.
Arguments frac_coords {R R32} _.
Arguments atom_types {R R32} _.
Arguments lengths {R R32} _.
Arguments angles {R R32} _.
Arguments edge_index {R R32} _.
Arguments to_jimages {R R32} _.
Arguments num_atoms {R R32} _.
Arguments num_bonds {R R32} _.
Arguments num_nodes {R R32} _.
Arguments y {R R32} _.

(** ** What the module imports

    [real] is numpy's float64 and [real32] torch's float32;
    [float32] is the element conversion done by [torch.Tensor(array)] and
    by [torch.tensor] on a Python float.
    A [Scaler] is the object the data module attaches after construction;
    [transform] acts on the flat contents of a tensor.  [pickle_dumps] and
    [pickle_loads] are the byte-level halves of [pickle.dump] and
    [pickle.load]; unpickling what was pickled gives the list back.
    [open_wb files p] is the operating system's verdict on
    [open(p, 'wb')] when the regular files are [files]: [None] when the
    file is opened, the exception otherwise (a missing directory, a
    refused permission, a read-only file system).
    [preprocess] and [preprocess_tensors] are
    [cdvae.common.data_utils]' functions, which may raise; [preprocess]
    reads its input file, so its result depends on the files.
    [scaled_lattice] is the lattice-scaling policy applied to the lengths,
    the angles and the atom count of one record. *)

Class Collaborators : Type := {
  real : Type;
  real32 : Type;
  float32 : real → real32;
  CrystalArray : Type;
  Scaler : Type;
  transform : Scaler → Tensor1 real real32 → Tensor1 real real32;
  Blob : Type;
  pickle_dumps : list (CachedRecord real) → Blob;
  pickle_loads : Blob → option (list (CachedRecord real));
  pickle_loads_dumps : ∀ l, pickle_loads (pickle_dumps l) = Some l;
  open_wb : gmap string Blob → string → option PyError;
  preprocess :
    gmap string Blob → string → Z → bool → bool → string → list string →
    Result (list (CachedRecord real));
  preprocess_tensors :
    list CrystalArray → bool → bool → string →
    Result (list (CachedRecord real));
  scaled_lattice : string → list real → list real → Z → list real
}.

(** ** The world a constructor runs in

    The file system is a finite map from paths to the contents of regular,
    readable files: a path names such a file or nothing.  Directories and
    write permissions show only in the verdict of [open_wb].  The trace lists, oldest first, every call that leaves the
    module; [PickleDump p] stands for the statement
    [pickle.dump(obj, open(p, 'wb'))], whether or not the file could be
    opened. *)

Inductive Event `{Collaborators} : Type :=
| CallPreprocess (input_file : string) (num_workers : Z)
    (niggli primitive : bool) (graph_method : string) (prop_list : list string)
| CallPreprocessTensors (crystal_array_list : list CrystalArray)
    (niggli primitive : bool) (graph_method : string)
| CallAddScaledLatticeProp (data_list : list (CachedRecord real))
    (lattice_scale_method : string)
| PathExists (p : string)
| PickleDump (p : string)
| PickleLoad (p : string)
| Print (line : string).

Record World `{Collaborators} : Type := {
  fs : gmap string Blob;
  trace : list Event
}.

Section World_ops.
Context `{Collaborators}.

Definition emit (e : Event) : Py World unit :=
  modify (λ w, {| fs := fs w; trace := trace w ++ [e] |}).

Definition print (line : string) : Py World unit := emit (Print line).

(** [Path(p).exists()] *)
Definition path_exists (p : string) : Py World bool :=
  emit (PathExists p);;
  gets (λ w, bool_decide (is_Some (fs w !! p))).

(** [pickle.dump(obj, open(p, 'wb'))]: when the file cannot be opened the
    exception is raised and nothing is written. *)
Definition pickle_dump (obj : list (CachedRecord real)) (p : string)
  : Py World unit :=
  emit (PickleDump p);;
  verdict ← gets (λ w, open_wb (fs w) p);
  match verdict with
  | Some e => raise e
  | None =>
      modify (λ w, {| fs := <[p := pickle_dumps obj]> (fs w);
                      trace := trace w |})
  end.

(** [pickle.load(open(p, 'rb'))] *)
Definition pickle_load (p : string) : Py World (list (CachedRecord real)) :=
  emit (PickleLoad p);;
  file ← gets (λ w, fs w !! p);
  match file with
  | None => raise (FileNotFoundError p)
  | Some blob =>
      match pickle_loads blob with
      | Some obj => mret obj
      | None => raise (UnpicklingError p)
      end
  end.

Definition call_preprocess (input_file : string) (num_workers : Z)
    (niggli primitive : bool) (graph_method : string) (prop_list : list string)
  : Py World (list (CachedRecord real)) :=
  emit (CallPreprocess input_file num_workers niggli primitive graph_method
          prop_list);;
  files ← gets fs;
  lift (preprocess files input_file num_workers niggli primitive graph_method
          prop_list).

Definition call_preprocess_tensors (crystal_array_list : list CrystalArray)
    (niggli primitive : bool) (graph_method : string)
  : Py World (list (CachedRecord real)) :=
  emit (CallPreprocessTensors crystal_array_list niggli primitive graph_method);;
  lift (preprocess_tensors crystal_array_list niggli primitive graph_method).

(** Unpacking [n] values into the seven names. *)
Definition unpack_error (n : nat) : PyError :=
  if (n <? 7)%nat
  then ValueError ("not enough values to unpack (expected 7, got " +:+
                   pretty n +:+ ")")
  else ValueError "too many values to unpack (expected 7)".

(** The tuple unpacking of [data_dict['graph_arrays']] and, for a value
    that is not the graph tuple, the first conversion of [Data(...)]: a
    number cannot be unpacked; a string or an array of another length than
    seven cannot either; one of length seven unpacks into characters or
    numbers, and [torch.Tensor] refuses the first of them. *)
Definition unpack_graph_arrays (v : PyValue real) : Result (GraphArrays real) :=
  match v with
  | VGraph g => inr g
  | VFloat _ | VFloat64 _ => inl TypeError
  | VArray a =>
      if bool_decide (length a = 7%nat) then inl TypeError
      else inl (unpack_error (length a))
  | VStr s =>
      if bool_decide (String.length s = 7%nat) then inl TypeError
      else inl (unpack_error (String.length s))
  end.

Definition graph_arrays_of (data_dict : CachedRecord real)
  : Result (GraphArrays real) :=
  match dict_getitem data_dict "graph_arrays" with
  | inr v => unpack_graph_arrays v
  | inl e => inl e
  end.

(** Modelled from the spec: [cdvae.common.data_utils.add_scaled_lattice_prop]
    is imported but not part of these sources.  It computes the
    [scaled_lattice] value of one record from its lattice lengths, its
    angles and its atom count under the given policy, and stores it in the
    record. *)
Definition add_scaled_lattice_one (lattice_scale_method : string)
    (d : CachedRecord real) : Result (CachedRecord real) :=
  match graph_arrays_of d with
  | inr g =>
      inr (<["scaled_lattice" :=
              VArray (scaled_lattice lattice_scale_method (ga_lengths g)
                        (ga_angles g) (ga_num_atoms g))]> d)
  | inl e => inl e
  end.

Fixpoint result_mapM {A B} (f : A → Result B) (l : list A) : Result (list B) :=
  match l with
  | [] => inr []
  | x :: l' =>
      match f x with
      | inl e => inl e
      | inr z =>
          match result_mapM f l' with
          | inl e => inl e
          | inr zs => inr (z :: zs)
          end
      end
  end.

(** Modelled from the spec: [add_scaled_lattice_prop(data_list, method)]
    augments every record of the list in place; the list it leaves behind
    is what the caller's reference denotes afterwards. *)
Definition add_scaled_lattice_prop (data_list : list (CachedRecord real))
    (lattice_scale_method : string) : Py World (list (CachedRecord real)) :=
  emit (CallAddScaledLatticeProp data_list lattice_scale_method);;
  lift (result_mapM (add_scaled_lattice_one lattice_scale_method) data_list).

(** [torch.tensor(v)], as the flat contents of the tensor: a Python float
    becomes a float32, numpy's values keep their float64. *)
Definition torch_tensor (v : PyValue real) : Result (Tensor1 real real32) :=
  match v with
  | VFloat x => inr (Float32_1 [float32 x])
  | VFloat64 x => inr (Float64_1 [x])
  | VArray a => inr (Float64_1 a)
  | VStr _ | VGraph _ => inl TypeError
  end.

End World_ops.

(** ** [repr] of a Python [str]

    A string is read as a sequence of code points below 256.  The result
    is quoted with ['], or with the double quote when the string holds a
    ['] and no double quote; the backslash, the quote in use and the
    non-printable code points are escaped. *)

Definition squote : ascii := "'"%char.

Definition dquote : ascii := Ascii.ascii_of_nat 34.

Definition backslash : ascii := "\"%char.

Fixpoint string_mem (c : ascii) (s : string) : bool :=
  match s with
  | EmptyString => false
  | String c' s' => bool_decide (c = c') || string_mem c s'
  end.

Definition hex_digit (n : N) : ascii :=
  if (n <? 10)%N then Ascii.ascii_of_N (48 + n) else Ascii.ascii_of_N (87 + n).

Definition printable (n : N) : bool :=
  ((32 <=? n) && (n <? 127) || (161 <=? n) && negb (n =? 173))%N.

Definition repr_char (quote c : ascii) : string :=
  let n := Ascii.N_of_ascii c in
  if bool_decide (c = backslash) then "\\"
  else if bool_decide (c = quote) then String backslash (String quote "")
  else if (n =? 9)%N then "\t"
  else if (n =? 10)%N then "\n"
  else if (n =? 13)%N then "\r"
  else if printable n then String c ""
  else String backslash
         (String "x" (String (hex_digit (n / 16)) (String (hex_digit (n mod 16)) ""))).

Fixpoint repr_chars (quote : ascii) (s : string) : string :=
  match s with
  | EmptyString => ""
  | String c s' => repr_char quote c +:+ repr_chars quote s'
  end.

Definition repr_str (s : string) : string :=
  let quote :=
    if string_mem squote s && negb (string_mem dquote s) then dquote
    else squote in
  String quote (repr_chars quote s +:+ String quote "").

(** [needle in haystack] on strings. *)
Fixpoint is_prefix (p s : string) : bool :=
  match p, s with
  | EmptyString, _ => true
  | String a p', String b s' => bool_decide (a = b) && is_prefix p' s'
  | String _ _, EmptyString => false
  end.

Fixpoint contains (haystack needle : string) : bool :=
  is_prefix needle haystack ||
  match haystack with
  | EmptyString => false
  | String _ h' => contains h' needle
  end.

(** ** class CrystDataset(Dataset) *)

Module CrystDataset.
Section Methods.
Context `{Collaborators}.

Record t : Type := {
  path : string;
  save_path : string;
  force_process : bool;
  name : string;
  prop : string;
  niggli : bool;
  primitive : bool;
  graph_method : string;
  lattice_scale_method : string;
  cached_data : list (CachedRecord real);
  lattice_scaler : option Scaler;
  scaler : option Scaler
}.

(** [self.force_process or not Path(self.save_path).exists()]: the right
    operand is evaluated only when the flag is false. *)
Definition must_process (force_process : bool) (save_path : string)
  : Py World bool :=
  if force_process then mret true
  else found ← path_exists save_path; mret (negb found).

Definition __init__ (name path save_path : string) (force_process : bool)
    (prop : string) (niggli primitive : bool) (graph_method : string)
    (preprocess_workers : Z) (lattice_scale_method : string) : Py World t :=
  process ← must_process force_process save_path;
  cached_data ←
    (if process : bool then
       cached_data ← call_preprocess path preprocess_workers niggli primitive
                       graph_method [prop];
       print ("Dump into " +:+ save_path +:+ " ...");;
       pickle_dump cached_data save_path;;
       mret cached_data
     else
       print ("Load from " +:+ save_path +:+ " ...");;
       pickle_load save_path);
  cached_data ← add_scaled_lattice_prop cached_data lattice_scale_method;
  mret {| path := path; save_path := save_path;
          force_process := force_process; name := name; prop := prop;
          niggli := niggli; primitive := primitive;
          graph_method := graph_method;
          lattice_scale_method := lattice_scale_method;
          cached_data := cached_data;
          lattice_scaler := None; scaler := None |}.

Definition __len__ : Py t Z :=
  gets (λ self, Z.of_nat (length (cached_data self))).

(** [self.scaler.transform]: the attribute lookup on the attached scaler. *)
Definition scaler_transform
  : Py t (Tensor1 real real32 → Tensor1 real real32) :=
  sc ← gets scaler;
  match sc with
  | Some s => mret (transform s)
  | None => raise (AttributeError "NoneType" "transform")
  end.

Definition __getitem__ (index : Z) : Py t (Data real real32) :=
  data_list ← gets cached_data;
  data_dict ← lift (list_getitem data_list index);
  (* the callee [self.scaler.transform] is evaluated before its argument *)
  transform_ ← scaler_transform;
  key ← gets prop;
  value ← lift (dict_getitem data_dict key);
  tensor ← lift (torch_tensor value);
  let prop := transform_ tensor in
  g ← lift (graph_arrays_of data_dict);
  mret {| frac_coords := array_map float32 (ga_frac_coords g);
          atom_types := ga_atom_types g;
          lengths := view_1_m1 (float32 <$> ga_lengths g);
          angles := view_1_m1 (float32 <$> ga_angles g);
          edge_index := T (ga_edge_indices g);
          to_jimages := ga_to_jimages g;
          num_atoms := ga_num_atoms g;
          num_bonds := Z.of_nat (nrows (ga_edge_indices g));
          num_nodes := ga_num_atoms g;
          y := Some (tensor_view_1_m1 prop) |}.

(** [f"CrystDataset({self.name=}, {self.path=}, {self.save_path=})"] *)
Definition __repr__ : Py t string :=
  name ← gets name;
  path ← gets path;
  save_path ← gets save_path;
  mret ("CrystDataset(self.name=" +:+ repr_str name +:+
        ", self.path=" +:+ repr_str path +:+
        ", self.save_path=" +:+ repr_str save_path +:+ ")").

End Methods.
End CrystDataset.

(** ** class TensorCrystDataset(Dataset) *)

Module TensorCrystDataset.
Section Methods.
Context `{Collaborators}.

Record t : Type := {
  niggli : bool;
  primitive : bool;
  graph_method : string;
  lattice_scale_method : string;
  cached_data : list (CachedRecord real);
  lattice_scaler : option Scaler;
  scaler : option Scaler
}.

Definition __init__ (crystal_array_list : list CrystalArray)
    (niggli primitive : bool) (graph_method : string)
    (preprocess_workers : Z) (lattice_scale_method : string) : Py World t :=
  cached_data ← call_preprocess_tensors crystal_array_list niggli primitive
                  graph_method;
  cached_data ← add_scaled_lattice_prop cached_data lattice_scale_method;
  mret {| niggli := niggli; primitive := primitive;
          graph_method := graph_method;
          lattice_scale_method := lattice_scale_method;
          cached_data := cached_data;
          lattice_scaler := None; scaler := None |}.

Definition __len__ : Py t Z :=
  gets (λ self, Z.of_nat (length (cached_data self))).

Definition __getitem__ (index : Z) : Py t (Data real real32) :=
  data_list ← gets cached_data;
  data_dict ← lift (list_getitem data_list index);
  g ← lift (graph_arrays_of data_dict);
  mret {| frac_coords := array_map float32 (ga_frac_coords g);
          atom_types := ga_atom_types g;
          lengths := view_1_m1 (float32 <$> ga_lengths g);
          angles := view_1_m1 (float32 <$> ga_angles g);
          edge_index := T (ga_edge_indices g);
          to_jimages := ga_to_jimages g;
          num_atoms := ga_num_atoms g;
          num_bonds := Z.of_nat (nrows (ga_edge_indices g));
          num_nodes := ga_num_atoms g;
          y := None |}.

(** [f"TensorCrystDataset(len: {len(self.cached_data)})"] *)
Definition __repr__ : Py t string :=
  n ← gets (λ self, length (cached_data self));
  mret ("TensorCrystDataset(len: " +:+ pretty n +:+ ")").

End Methods.
End TensorCrystDataset.

(** ** A concrete instantiation

    Rationals stand for the floating-point values; the scaler is the
    standardisation [(x - mean) / std]; a pickled blob is the list itself;
    the source file [train.csv] holds three crystals with a
    [formation_energy] column. *)

Module Sample.

Definition sample_graph (n m : nat) : GraphArrays Q :=
  {| ga_frac_coords := {| rows := replicate n [0; 0; 0]%Q; ncols := 3 |};
     ga_atom_types := replicate n 6;
     ga_lengths := [4; 4; 4]%Q;
     ga_angles := [90; 90; 90]%Q;
     ga_edge_indices :=
       {| rows := (λ k, [Z.of_nat (k mod n); Z.of_nat ((k + 1) mod n)])
                    <$> seq 0 m;
          ncols := 2 |};
     ga_to_jimages := {| rows := replicate m [0; 0; 0]; ncols := 3 |};
     ga_num_atoms := Z.of_nat n |}.

Definition sample_row (n m : nat) (energy : Q) (prop_list : list string)
  : CachedRecord Q :=
  let base : CachedRecord Q := {[ "graph_arrays" := VGraph (sample_graph n m) ]} in
  if bool_decide ("formation_energy" ∈ prop_list)
  then <["formation_energy" := VFloat energy]> base
  else base.

Definition sample_preprocess (input_file : string) (num_workers : Z)
    (niggli primitive : bool) (graph_method : string) (prop_list : list string)
  : Result (list (CachedRecord Q)) :=
  if bool_decide (input_file = "train.csv")
  then inr [sample_row 2 4 1 prop_list; sample_row 3 6 2 prop_list;
            sample_row 4 8 3 prop_list]
  else inl (FileNotFoundError input_file).

Definition sample_preprocess_tensors (crystal_array_list : list (GraphArrays Q))
    (niggli primitive : bool) (graph_method : string)
  : Result (list (CachedRecord Q)) :=
  inr ((λ g, ({[ "graph_arrays" := VGraph g ]} : CachedRecord Q))
         <$> crystal_array_list).

(** mean and standard deviation *)
Definition standardise (s : Q * Q) (t : Tensor1 Q Q) : Tensor1 Q Q :=
  let scale := λ x : Q, Qred ((x - s.1) / s.2) in
  match t with
  | Float32_1 t => Float32_1 (scale <$> t)
  | Float64_1 t => Float64_1 (scale <$> t)
  end.

(** No directory [nodir] exists: a file below it cannot be created. *)
Definition sample_open_wb (files : gmap string (list (CachedRecord Q)))
    (p : string) : option PyError :=
  if is_prefix "nodir/" p then Some (FileNotFoundError p) else None.

#[export] Instance sample_collaborators : Collaborators := {|
  real := Q;
  real32 := Q;
  float32 := id;
  CrystalArray := GraphArrays Q;
  Scaler := Q * Q;
  transform := standardise;
  Blob := list (CachedRecord Q);
  pickle_dumps := id;
  pickle_loads := Some;
  pickle_loads_dumps := λ l, eq_refl;
  open_wb := sample_open_wb;
  preprocess := λ _, sample_preprocess;
  preprocess_tensors := sample_preprocess_tensors;
  scaled_lattice := λ _ lengths angles _, lengths ++ angles
|}.

Definition empty_world : World := {| fs := ∅; trace := [] |}.

(** The labelled dataset built over an empty file system. *)
Definition train_init : Py World CrystDataset.t :=
  CrystDataset.__init__ "perov" "train.csv" "train.pt" false
    "formation_energy" true false "crystalnn" 4 "scale_length".

Definition train_world : World := final train_init empty_world.

Definition no_dataset : CrystDataset.t :=
  {| CrystDataset.path := ""; CrystDataset.save_path := "";
     CrystDataset.force_process := false; CrystDataset.name := "";
     CrystDataset.prop := ""; CrystDataset.niggli := false;
     CrystDataset.primitive := false; CrystDataset.graph_method := "";
     CrystDataset.lattice_scale_method := "";
     CrystDataset.cached_data := [];
     CrystDataset.lattice_scaler := None; CrystDataset.scaler := None |}.

Definition train_dataset : CrystDataset.t :=
  match outcome train_init empty_world with
  | inr d => d
  | inl _ => no_dataset
  end.

(** What [main] does after construction: attach the fitted scalers. *)
Definition attach (lattice_scaler scaler : Q * Q) (d : CrystDataset.t)
  : CrystDataset.t :=
  {| CrystDataset.path := CrystDataset.path d;
     CrystDataset.save_path := CrystDataset.save_path d;
     CrystDataset.force_process := CrystDataset.force_process d;
     CrystDataset.name := CrystDataset.name d;
     CrystDataset.prop := CrystDataset.prop d;
     CrystDataset.niggli := CrystDataset.niggli d;
     CrystDataset.primitive := CrystDataset.primitive d;
     CrystDataset.graph_method := CrystDataset.graph_method d;
     CrystDataset.lattice_scale_method := CrystDataset.lattice_scale_method d;
     CrystDataset.cached_data := CrystDataset.cached_data d;
     CrystDataset.lattice_scaler := Some lattice_scaler;
     CrystDataset.scaler := Some scaler |}.

Definition fitted_dataset : CrystDataset.t := attach (0, 1)%Q (2, 1)%Q train_dataset.

(** The label-free dataset built from two in-memory crystals. *)
Definition tensor_init : Py World TensorCrystDataset.t :=
  TensorCrystDataset.__init__ [sample_graph 2 4; sample_graph 3 6]
    true false "crystalnn" 4 "scale_length".

Definition no_tensor_dataset : TensorCrystDataset.t :=
  {| TensorCrystDataset.niggli := false; TensorCrystDataset.primitive := false;
     TensorCrystDataset.graph_method := "";
     TensorCrystDataset.lattice_scale_method := "";
     TensorCrystDataset.cached_data := [];
     TensorCrystDataset.lattice_scaler := None;
     TensorCrystDataset.scaler := None |}.

Definition tensor_dataset : TensorCrystDataset.t :=
  match outcome tensor_init empty_world with
  | inr d => d
  | inl _ => no_tensor_dataset
  end.

(** The record at index 1 of the labelled dataset, its graph arrays, and
    the sample graph expected there once the scaler (mean 2, deviation 1)
    is attached. *)
Definition second_graph : GraphArrays Q := sample_graph 3 6.

Definition second_record : CachedRecord Q :=
  <["scaled_lattice" := VArray [4; 4; 4; 90; 90; 90]%Q]>
    (sample_row 3 6 2 ["formation_energy"]).

Definition second_sample : Data Q Q :=
  {| frac_coords := {| rows := replicate 3 [0; 0; 0]%Q; ncols := 3 |};
     atom_types := [6; 6; 6];
     lengths := {| rows := [[4; 4; 4]%Q]; ncols := 3 |};
     angles := {| rows := [[90; 90; 90]%Q]; ncols := 3 |};
     edge_index := {| rows := [[0; 1; 2; 0; 1; 2]; [1; 2; 0; 1; 2; 0]];
                      ncols := 6 |};
     to_jimages := {| rows := replicate 6 [0; 0; 0]; ncols := 3 |};
     num_atoms := 3;
     num_bonds := 6;
     num_nodes := 3;
     y := Some (Float32_2 {| rows := [[0%Q]]; ncols := 1 |}) |}.

(** A second construction over the world the first one left, with another
    configuration: the file now exists, so it is loaded. *)
Definition reload_init : Py World CrystDataset.t :=
  CrystDataset.__init__ "perov" "train.csv" "train.pt" false
    "band_gap" false true "voronoi" 1 "scale_volume".

Definition reloaded_dataset : CrystDataset.t :=
  match outcome reload_init train_world with
  | inr d => d
  | inl _ => no_dataset
  end.

End Sample.

(** ** Vocabulary of the specification

    The two classes seen as one indexable facade, the observers of a
    construction's trace, and the well-formedness of a cached record. *)

Section Vocabulary.
Context `{Collaborators}.

Inductive Facade : Type :=
| Labelled (d : CrystDataset.t)
| LabelFree (d : TensorCrystDataset.t).

Definition records (ds : Facade) : list (CachedRecord real) :=
  match ds with
  | Labelled d => CrystDataset.cached_data d
  | LabelFree d => TensorCrystDataset.cached_data d
  end.

(** [len(dataset)] *)
Definition length_of (ds : Facade) : Result Z :=
  match ds with
  | Labelled d => outcome CrystDataset.__len__ d
  | LabelFree d => outcome TensorCrystDataset.__len__ d
  end.

(** [dataset[index]] *)
Definition at_index (ds : Facade) (index : Z) : Result (Data real real32) :=
  match ds with
  | Labelled d => outcome (CrystDataset.__getitem__ index) d
  | LabelFree d => outcome (TensorCrystDataset.__getitem__ index) d
  end.

(** [repr(dataset)] *)
Definition summary (ds : Facade) : Result string :=
  match ds with
  | Labelled d => outcome CrystDataset.__repr__ d
  | LabelFree d => outcome TensorCrystDataset.__repr__ d
  end.

(** The events a computation appends to the trace. *)
Definition events {A} (m : Py World A) (w : World) : list Event :=
  drop (length (trace w)) (trace (final m w)).

Definition is_call_preprocess (e : Event) : bool :=
  match e with CallPreprocess _ _ _ _ _ _ => true | _ => false end.

Definition is_augmentation (e : Event) : bool :=
  match e with CallAddScaledLatticeProp _ _ => true | _ => false end.

Definition is_file_access (e : Event) : bool :=
  match e with PathExists _ | PickleDump _ | PickleLoad _ => true | _ => false end.

Definition count_events (p : Event → bool) (l : list Event) : nat :=
  length (List.filter p l).

(** The list [add_scaled_lattice_prop] leaves behind. *)
Definition augmented (lattice_scale_method : string)
    (data_list : list (CachedRecord real)) : Result (list (CachedRecord real)) :=
  result_mapM (add_scaled_lattice_one lattice_scale_method) data_list.

Definition has_scaled_lattice (lattice_scale_method : string)
    (d : CachedRecord real) : Prop :=
  ∃ g, graph_arrays_of d = inr g ∧
       d !! "scaled_lattice" =
         Some (VArray (scaled_lattice lattice_scale_method (ga_lengths g)
                         (ga_angles g) (ga_num_atoms g))).

(** The error the disabled guard of [CrystDataset.__getitem__] names. *)
Definition scaler_not_set : PyError :=
  ValueError "Scaler should be set before used".

(** The invariant of a cached record: N is the row count of the
    coordinates and the length of the atom types; M, the number of image
    offsets, is the first dimension of the edge list. *)
Definition record_invariant (g : GraphArrays real) : Prop :=
  ga_num_atoms g = Z.of_nat (nrows (ga_frac_coords g)) ∧
  ga_num_atoms g = Z.of_nat (length (ga_atom_types g)) ∧
  nrows (ga_to_jimages g) = nrows (ga_edge_indices g).

(** The stored edge list is an M×2 array. *)
Definition edge_list_shape (g : GraphArrays real) : Prop :=
  wf_array (ga_edge_indices g) ∧ ncols (ga_edge_indices g) = 2%nat.

End Vocabulary.

(** ** The script entry point [main]

    [main] builds the training dataset from the configuration node
    [cfg.data.datamodule.datasets.train] (a [CrystDataset], as the
    annotation of [dataset] says), fits the two scalers with
    [get_scaler_from_data_list], attaches them, prints the dataset and
    collects every sample into one batch.  [get_scaler_from_data_list]
    and [Batch.from_data_list] are imported. *)

Class MainCollaborators `{Collaborators} : Type := {
  Batch : Type;
  get_scaler_from_data_list :
    list (CachedRecord real) → string → Result Scaler;
  from_data_list : list (Data real real32) → Result Batch
}.

(** The keyword arguments the configuration node passes to the class. *)
Record TrainConfig : Type := {
  cfg_name : string;
  cfg_path : string;
  cfg_save_path : string;
  cfg_force_process : bool;
  cfg_prop : string;
  cfg_niggli : bool;
  cfg_primitive : bool;
  cfg_graph_method : string;
  cfg_preprocess_workers : Z;
  cfg_lattice_scale_method : string
}.

Section Main.
Context `{MainCollaborators}.

(** [hydra.utils.instantiate(cfg.data.datamodule.datasets.train, ...)] *)
Definition instantiate (cfg : TrainConfig) : Py World CrystDataset.t :=
  CrystDataset.__init__ (cfg_name cfg) (cfg_path cfg) (cfg_save_path cfg)
    (cfg_force_process cfg) (cfg_prop cfg) (cfg_niggli cfg)
    (cfg_primitive cfg) (cfg_graph_method cfg) (cfg_preprocess_workers cfg)
    (cfg_lattice_scale_method cfg).

(** [dataset.lattice_scaler = value] *)
Definition setattr_lattice_scaler (value : Scaler) : Py CrystDataset.t unit :=
  modify (λ self,
    {| CrystDataset.path := CrystDataset.path self;
       CrystDataset.save_path := CrystDataset.save_path self;
       CrystDataset.force_process := CrystDataset.force_process self;
       CrystDataset.name := CrystDataset.name self;
       CrystDataset.prop := CrystDataset.prop self;
       CrystDataset.niggli := CrystDataset.niggli self;
       CrystDataset.primitive := CrystDataset.primitive self;
       CrystDataset.graph_method := CrystDataset.graph_method self;
       CrystDataset.lattice_scale_method :=
         CrystDataset.lattice_scale_method self;
       CrystDataset.cached_data := CrystDataset.cached_data self;
       CrystDataset.lattice_scaler := Some value;
       CrystDataset.scaler := CrystDataset.scaler self |}).

(** [dataset.scaler = value] *)
Definition setattr_scaler (value : Scaler) : Py CrystDataset.t unit :=
  modify (λ self,
    {| CrystDataset.path := CrystDataset.path self;
       CrystDataset.save_path := CrystDataset.save_path self;
       CrystDataset.force_process := CrystDataset.force_process self;
       CrystDataset.name := CrystDataset.name self;
       CrystDataset.prop := CrystDataset.prop self;
       CrystDataset.niggli := CrystDataset.niggli self;
       CrystDataset.primitive := CrystDataset.primitive self;
       CrystDataset.graph_method := CrystDataset.graph_method self;
       CrystDataset.lattice_scale_method :=
         CrystDataset.lattice_scale_method self;
       CrystDataset.cached_data := CrystDataset.cached_data self;
       CrystDataset.lattice_scaler := CrystDataset.lattice_scaler self;
       CrystDataset.scaler := Some value |}).

(** A method call on the object a local variable denotes: the world is
    not touched, the object may be. *)
Definition on_object {O A} (self : O) (m : Py O A) : Py World (O * A) :=
  λ w, match m self with
       | (self', inr x) => (w, inr (self', x))
       | (_, inl e) => (w, inl e)
       end.

(** [range(n)] *)
Definition range (n : Z) : list Z := Z.of_nat <$> seq 0 (Z.to_nat n).

(** [[body(i) for i in indices]]: the calls are made in order and the
    first exception ends the comprehension. *)
Fixpoint comprehension {O A} (body : Z → Py O A) (indices : list Z)
  : Py O (list A) :=
  match indices with
  | [] => mret []
  | i :: rest =>
      x ← body i;
      xs ← comprehension body rest;
      mret (x :: xs)
  end.

Definition main (cfg : TrainConfig) : Py World Batch :=
  dataset ← instantiate cfg;
  lattice_scaler ←
    lift (get_scaler_from_data_list (CrystDataset.cached_data dataset)
            "scaled_lattice");
  scaler ←
    lift (get_scaler_from_data_list (CrystDataset.cached_data dataset)
            (CrystDataset.prop dataset));
  '(dataset, _) ← on_object dataset
                    (setattr_lattice_scaler lattice_scaler;;
                     setattr_scaler scaler);
  '(dataset, text) ← on_object dataset CrystDataset.__repr__;
  print text;;
  '(dataset, data_list) ←
     on_object dataset
       (n ← CrystDataset.__len__;
        comprehension CrystDataset.__getitem__ (range n));
  lift (from_data_list data_list).

(** The dataset as [main] has it once both scalers are attached. *)
Definition with_scalers (lattice_scaler scaler : Scaler)
    (d : CrystDataset.t) : CrystDataset.t :=
  final (setattr_lattice_scaler lattice_scaler;; setattr_scaler scaler) d.

End Main.

(** The sample instantiation of what [main] imports: the fitted scaler is
    the mean of the scalar values under the key, with unit deviation; a
    batch is the list of its samples. *)

Module SampleMain.
Import Sample.

Definition scalar_of (v : PyValue Q) : Q :=
  match v with VFloat x => x | _ => 0%Q end.

Definition sample_fit (data_list : list (CachedRecord Q)) (key : string)
  : Result (Q * Q) :=
  match result_mapM (λ d, dict_getitem d key) data_list with
  | inl e => inl e
  | inr values =>
      let total := foldr Qplus 0%Q (scalar_of <$> values) in
      inr (Qred (total / inject_Z (Z.of_nat (length values))), 1%Q)
  end.

#[export] Instance sample_main : MainCollaborators := {|
  Batch := list (Data Q Q);
  get_scaler_from_data_list := sample_fit;
  from_data_list := inr
|}.

Definition train_cfg : TrainConfig :=
  {| cfg_name := "perov"; cfg_path := "train.csv";
     cfg_save_path := "train.pt"; cfg_force_process := false;
     cfg_prop := "formation_energy"; cfg_niggli := true;
     cfg_primitive := false; cfg_graph_method := "crystalnn";
     cfg_preprocess_workers := 4;
     cfg_lattice_scale_method := "scale_length" |}.

(** A configuration that names a property the cached file does not hold. *)
Definition stale_cfg : TrainConfig :=
  {| cfg_name := "perov"; cfg_path := "train.csv";
     cfg_save_path := "train.pt"; cfg_force_process := false;
     cfg_prop := "band_gap"; cfg_niggli := false;
     cfg_primitive := true; cfg_graph_method := "voronoi";
     cfg_preprocess_workers := 1;
     cfg_lattice_scale_method := "scale_volume" |}.

End SampleMain.

(** Further sample data: the record at index 0, the stale dataset of
    [reload_init] with scalers attached, a label-free view of the labelled
    records, a label-free dataset holding a record without graph arrays,
    and the batch [main] returns. *)

Module SampleMore.
Import Sample SampleMain.

Definition first_record : CachedRecord Q :=
  <["scaled_lattice" := VArray [4; 4; 4; 90; 90; 90]%Q]>
    (sample_row 2 4 1 ["formation_energy"]).

Definition cached_blob : list (CachedRecord Q) :=
  [sample_row 2 4 1 ["formation_energy"];
   sample_row 3 6 2 ["formation_energy"];
   sample_row 4 8 3 ["formation_energy"]].

Definition stale_dataset : CrystDataset.t := attach (0, 1)%Q (0, 1)%Q reloaded_dataset.

Definition tensor_view : TensorCrystDataset.t :=
  {| TensorCrystDataset.niggli := true;
     TensorCrystDataset.primitive := false;
     TensorCrystDataset.graph_method := "crystalnn";
     TensorCrystDataset.lattice_scale_method := "scale_length";
     TensorCrystDataset.cached_data := CrystDataset.cached_data train_dataset;
     TensorCrystDataset.lattice_scaler := None;
     TensorCrystDataset.scaler := None |}.

Definition bare_record : CachedRecord Q := {[ "mp_id" := VStr "mp-1" ]}.

(** The record at index 1 of the label-free dataset. *)
Definition tensor_record : CachedRecord Q :=
  <["scaled_lattice" := VArray [4; 4; 4; 90; 90; 90]%Q]>
    {[ "graph_arrays" := VGraph second_graph ]}.

(** A forced construction for another property, and the rows it processes. *)
Definition forced_init : Py World CrystDataset.t :=
  CrystDataset.__init__ "perov" "train.csv" "train.pt" true
    "band_gap" true false "crystalnn" 4 "scale_length".

Definition band_gap_rows : list (CachedRecord Q) :=
  [sample_row 2 4 1 ["band_gap"];
   sample_row 3 6 2 ["band_gap"];
   sample_row 4 8 3 ["band_gap"]].

(** A construction whose destination lies in a directory that does not
    exist. *)
Definition nodir_init : Py World CrystDataset.t :=
  CrystDataset.__init__ "perov" "train.csv" "nodir/train.pt" false
    "formation_energy" true false "crystalnn" 4 "scale_length".

Definition bare_dataset : TensorCrystDataset.t :=
  {| TensorCrystDataset.niggli := true;
     TensorCrystDataset.primitive := false;
     TensorCrystDataset.graph_method := "crystalnn";
     TensorCrystDataset.lattice_scale_method := "scale_length";
     TensorCrystDataset.cached_data := [bare_record];
     TensorCrystDataset.lattice_scaler := None;
     TensorCrystDataset.scaler := None |}.

Definition train_batch : list (Data Q Q) :=
  match outcome (main train_cfg) empty_world with
  | inr batch => batch
  | inl _ => []
  end.

End SampleMore.

(** A second instantiation, whose [preprocess] returns a record without
    graph arrays, on which the augmentation raises. *)

Module SampleBare.

#[export] Instance bare_collaborators : Collaborators := {|
  real := Q;
  real32 := Q;
  float32 := id;
  CrystalArray := GraphArrays Q;
  Scaler := Q * Q;
  transform := Sample.standardise;
  Blob := list (CachedRecord Q);
  pickle_dumps := id;
  pickle_loads := Some;
  pickle_loads_dumps := λ l, eq_refl;
  open_wb := Sample.sample_open_wb;
  preprocess := λ _ _ _ _ _ _ _, inr [SampleMore.bare_record];
  preprocess_tensors := Sample.sample_preprocess_tensors;
  scaled_lattice := λ _ lengths angles _, lengths ++ angles
|}.

Definition bare_world : World := {| fs := ∅; trace := [] |}.

Definition bare_init : Py World CrystDataset.t :=
  CrystDataset.__init__ "perov" "train.csv" "train.pt" false
    "formation_energy" true false "crystalnn" 4 "scale_length".

End SampleBare.

(** ** Usable records *)

Section Usable.
Context `{Collaborators}.

(** The record holds a 7-tuple under ['graph_arrays']. *)
Definition has_graph_arrays (data_dict : CachedRecord real) : Prop :=
  ∃ g, graph_arrays_of data_dict = inr g.

(** The record holds, under [key], a value [torch.tensor] accepts. *)
Definition numeric_under (key : string) (data_dict : CachedRecord real) : Prop :=
  ∃ value tensor,
    dict_getitem data_dict key = inr value ∧ torch_tensor value = inr tensor.

(** What indexed access needs besides the record's graph arrays: for the
    labelled class, an attached scaler and a numeric value under the
    property. *)
Definition accessible (ds : Facade) (data_dict : CachedRecord real) : Prop :=
  match ds with
  | Labelled d =>
      is_Some (CrystDataset.scaler d) ∧
      numeric_under (CrystDataset.prop d) data_dict
  | LabelFree _ => True
  end.

(** A dataset on which every in-range access can succeed. *)
Definition usable (ds : Facade) : Prop :=
  Forall has_graph_arrays (records ds) ∧
  match ds with
  | Labelled d =>
      is_Some (CrystDataset.scaler d) ∧
      Forall (numeric_under (CrystDataset.prop d)) (CrystDataset.cached_data d)
  | LabelFree _ => True
  end.

(** A sample graph with its target dropped. *)
Definition without_target (data : Data real real32) : Data real real32 :=
  {| frac_coords := frac_coords data;
     atom_types := atom_types data;
     lengths := lengths data;
     angles := angles data;
     edge_index := edge_index data;
     to_jimages := to_jimages data;
     num_atoms := num_atoms data;
     num_bonds := num_bonds data;
     num_nodes := num_nodes data;
     y := None |}.

Definition is_file_read (e : Event) : bool :=
  match e with PathExists _ | PickleLoad _ => true | _ => false end.

End Usable.

(** * Properties *)

(** ** Python list indexing *)

Lemma list_getitem_out_of_range {A} (l : list A) (index : Z) :
  index < - Z.of_nat (length l) ∨ Z.of_nat (length l) <= index →
  list_getitem l index = inl IndexError.
Proof.
  intros Hout. unfold list_getitem.
  destruct (Z.ltb_spec index 0) as [Hneg|Hpos].
  - destruct (Z.ltb_spec (index + Z.of_nat (length l)) 0); [done | lia].
  - destruct (Z.ltb_spec index 0); [lia|].
    destruct (Z.leb_spec (Z.of_nat (length l)) index); [done | lia].
Qed.

Lemma list_getitem_in_range {A} (l : list A) (index : Z) :
  0 <= index < Z.of_nat (length l) →
  ∃ x, l !! Z.to_nat index = Some x ∧ list_getitem l index = inr x.
Proof.
  intros Hin. unfold list_getitem.
  destruct (Z.ltb_spec index 0); [lia|].
  destruct (Z.ltb_spec index 0); [lia|].
  destruct (Z.leb_spec (Z.of_nat (length l)) index); [lia|]. simpl.
  destruct (lookup_lt_is_Some_2 l (Z.to_nat index)) as [x Hx]; [lia|].
  exists x. by rewrite Hx.
Qed.

Lemma list_getitem_negative {A} (l : list A) (index : Z) :
  - Z.of_nat (length l) <= index < 0 →
  list_getitem l index = list_getitem l (index + Z.of_nat (length l)).
Proof.
  intros Hin. unfold list_getitem.
  assert ((index <? 0) = true) as E1 by lia.
  assert ((index + Z.of_nat (length l) <? 0) = false) as E2 by lia.
  cbv zeta. by rewrite E1, !E2.
Qed.

(** ** Arrays *)

Lemma column_lookup {A} (a : ndarray2 A) (i j : nat) :
  wf_array a → (j < ncols a)%nat → column a j !! i = item a i j.
Proof.
  unfold column, item, wf_array. destruct a as [rs c]; simpl.
  intros Hwf Hj. revert i.
  induction Hwf as [|r rs' Hr Hwf IH]; intros i; [done|].
  rewrite bind_cons.
  destruct (r !! j) as [x|] eqn:Hx.
  - destruct i as [|i]; simpl; [by rewrite Hx | apply IH].
  - apply lookup_ge_None in Hx. lia.
Qed.

Lemma column_length {A} (a : ndarray2 A) (j : nat) :
  wf_array a → (j < ncols a)%nat → length (column a j) = nrows a.
Proof.
  unfold column, nrows, wf_array. destruct a as [rs c]; simpl.
  intros Hwf Hj.
  induction Hwf as [|r rs' Hr Hwf IH]; [done|].
  rewrite bind_cons, length_app, IH. simpl.
  destruct (r !! j) as [x|] eqn:Hx; [done|].
  apply lookup_ge_None in Hx. lia.
Qed.

Lemma T_shape {A} (a : ndarray2 A) : shape (T a) = (ncols a, nrows a).
Proof. unfold shape, nrows, T. simpl. by rewrite length_fmap, length_seq. Qed.

Lemma T_wf {A} (a : ndarray2 A) : wf_array a → wf_array (T a).
Proof.
  intros Hwf. unfold wf_array, T. simpl.
  apply Forall_fmap, Forall_forall. intros j Hj.
  apply elem_of_seq in Hj. simpl. apply column_length; [done | lia].
Qed.

Lemma item_T {A} (a : ndarray2 A) (i j : nat) :
  wf_array a → (j < ncols a)%nat → item (T a) j i = item a i j.
Proof.
  intros Hwf Hj. unfold item at 1, T. simpl.
  rewrite list_lookup_fmap, lookup_seq_lt by done. simpl.
  by apply column_lookup.
Qed.

Lemma array_map_nrows {A B} (f : A → B) (a : ndarray2 A) :
  nrows (array_map f a) = nrows a.
Proof. unfold nrows, array_map. simpl. by rewrite length_fmap. Qed.

(** ** The constructors, run to completion *)

Section Constructors.
Context `{Collaborators}.

Ltac run_init :=
  cbv [CrystDataset.__init__ CrystDataset.must_process
       TensorCrystDataset.__init__ call_preprocess call_preprocess_tensors
       add_scaled_lattice_prop pickle_dump pickle_load path_exists print emit
       mbind Py_bind mret Py_ret gets modify lift raise];
  cbn [fs trace].

Lemma init_process_ok name path save_path (force_process : bool) prop
    niggli primitive graph_method workers method (w : World) recs :
  force_process = true ∨ fs w !! save_path = None →
  preprocess (fs w) path workers niggli primitive graph_method [prop] = inr recs →
  open_wb (fs w) save_path = None →
  CrystDataset.__init__ name path save_path force_process prop niggli
    primitive graph_method workers method w =
  ({| fs := <[save_path := pickle_dumps recs]> (fs w);
      trace := trace w ++
        (if force_process then [] else [PathExists save_path]) ++
        [CallPreprocess path workers niggli primitive graph_method [prop];
         Print ("Dump into " +:+ save_path +:+ " ...");
         PickleDump save_path;
         CallAddScaledLatticeProp recs method] |},
   match result_mapM (add_scaled_lattice_one method) recs with
   | inr data =>
       inr {| CrystDataset.path := path; CrystDataset.save_path := save_path;
              CrystDataset.force_process := force_process;
              CrystDataset.name := name; CrystDataset.prop := prop;
              CrystDataset.niggli := niggli;
              CrystDataset.primitive := primitive;
              CrystDataset.graph_method := graph_method;
              CrystDataset.lattice_scale_method := method;
              CrystDataset.cached_data := data;
              CrystDataset.lattice_scaler := None;
              CrystDataset.scaler := None |}
   | inl e => inl e
   end).
Proof.
  intros Hgo Hpre Hopen. run_init.
  destruct force_process.
  - cbn [fs trace]. rewrite Hpre. cbn [fs trace]. rewrite Hopen.
    cbn [fs trace]. rewrite <- !app_assoc. simpl.
    by destruct (result_mapM _ recs).
  - destruct Hgo as [|Hnone]; [done|].
    cbn [fs trace]. rewrite Hnone.
    rewrite bool_decide_eq_false_2 by (by intros [? ?]).
    cbn [negb fs trace]. rewrite Hpre. cbn [fs trace]. rewrite Hopen.
    cbn [fs trace]. rewrite <- !app_assoc. simpl.
    by destruct (result_mapM _ recs).
Qed.

Lemma init_process_unwritable name path save_path (force_process : bool) prop
    niggli primitive graph_method workers method (w : World) recs e :
  force_process = true ∨ fs w !! save_path = None →
  preprocess (fs w) path workers niggli primitive graph_method [prop] = inr recs →
  open_wb (fs w) save_path = Some e →
  CrystDataset.__init__ name path save_path force_process prop niggli
    primitive graph_method workers method w =
  ({| fs := fs w;
      trace := trace w ++
        (if force_process then [] else [PathExists save_path]) ++
        [CallPreprocess path workers niggli primitive graph_method [prop];
         Print ("Dump into " +:+ save_path +:+ " ...");
         PickleDump save_path] |},
   inl e).
Proof.
  intros Hgo Hpre Hopen. run_init.
  destruct force_process.
  - cbn [fs trace]. rewrite Hpre. cbn [fs trace]. rewrite Hopen.
    by rewrite <- !app_assoc.
  - destruct Hgo as [|Hnone]; [done|].
    cbn [fs trace]. rewrite Hnone.
    rewrite bool_decide_eq_false_2 by (by intros [? ?]).
    cbn [negb fs trace]. rewrite Hpre. cbn [fs trace]. rewrite Hopen.
    by rewrite <- !app_assoc.
Qed.

Lemma init_process_raises name path save_path (force_process : bool) prop
    niggli primitive graph_method workers method (w : World) e :
  force_process = true ∨ fs w !! save_path = None →
  preprocess (fs w) path workers niggli primitive graph_method [prop] = inl e →
  CrystDataset.__init__ name path save_path force_process prop niggli
    primitive graph_method workers method w =
  ({| fs := fs w;
      trace := trace w ++
        (if force_process then [] else [PathExists save_path]) ++
        [CallPreprocess path workers niggli primitive graph_method [prop]] |},
   inl e).
Proof.
  intros Hgo Hpre. run_init.
  destruct force_process.
  - cbn [fs trace]. by rewrite Hpre.
  - destruct Hgo as [|Hnone]; [done|].
    cbn [fs trace]. rewrite Hnone.
    rewrite bool_decide_eq_false_2 by (by intros [? ?]).
    cbn [negb fs trace]. rewrite Hpre. by rewrite <- !app_assoc.
Qed.

Lemma init_load name path save_path prop niggli primitive graph_method
    workers method (w : World) blob :
  fs w !! save_path = Some blob →
  CrystDataset.__init__ name path save_path false prop niggli
    primitive graph_method workers method w =
  match pickle_loads blob with
  | Some recs =>
      ({| fs := fs w;
          trace := trace w ++
            [PathExists save_path;
             Print ("Load from " +:+ save_path +:+ " ...");
             PickleLoad save_path;
             CallAddScaledLatticeProp recs method] |},
       match result_mapM (add_scaled_lattice_one method) recs with
       | inr data =>
           inr {| CrystDataset.path := path;
                  CrystDataset.save_path := save_path;
                  CrystDataset.force_process := false;
                  CrystDataset.name := name; CrystDataset.prop := prop;
                  CrystDataset.niggli := niggli;
                  CrystDataset.primitive := primitive;
                  CrystDataset.graph_method := graph_method;
                  CrystDataset.lattice_scale_method := method;
                  CrystDataset.cached_data := data;
                  CrystDataset.lattice_scaler := None;
                  CrystDataset.scaler := None |}
       | inl e => inl e
       end)
  | None =>
      ({| fs := fs w;
          trace := trace w ++
            [PathExists save_path;
             Print ("Load from " +:+ save_path +:+ " ...");
             PickleLoad save_path] |},
       inl (UnpicklingError save_path))
  end.
Proof.
  intros Hfile. run_init. rewrite Hfile.
  rewrite bool_decide_eq_true_2 by eauto.
  cbn [negb fs trace]. rewrite Hfile.
  destruct (pickle_loads blob) as [recs|]; cbn [fs trace];
    rewrite <- !app_assoc; simpl; [|done].
  by destruct (result_mapM _ recs).
Qed.

Lemma tensor_init_run crystal_array_list niggli primitive graph_method
    workers method (w : World) :
  TensorCrystDataset.__init__ crystal_array_list niggli primitive
    graph_method workers method w =
  match preprocess_tensors crystal_array_list niggli primitive graph_method with
  | inr recs =>
      ({| fs := fs w;
          trace := trace w ++
            [CallPreprocessTensors crystal_array_list niggli primitive
               graph_method;
             CallAddScaledLatticeProp recs method] |},
       match result_mapM (add_scaled_lattice_one method) recs with
       | inr data =>
           inr {| TensorCrystDataset.niggli := niggli;
                  TensorCrystDataset.primitive := primitive;
                  TensorCrystDataset.graph_method := graph_method;
                  TensorCrystDataset.lattice_scale_method := method;
                  TensorCrystDataset.cached_data := data;
                  TensorCrystDataset.lattice_scaler := None;
                  TensorCrystDataset.scaler := None |}
       | inl e => inl e
       end)
  | inl e =>
      ({| fs := fs w;
          trace := trace w ++
            [CallPreprocessTensors crystal_array_list niggli primitive
               graph_method] |},
       inl e)
  end.
Proof.
  run_init.
  destruct (preprocess_tensors _ _ _ _) as [e|recs]; cbn [fs trace]; [done|].
  rewrite <- !app_assoc. simpl.
  by destruct (result_mapM _ recs).
Qed.

Lemma run_observed {A} (m : Py World A) (w : World) f l r :
  m w = ({| fs := f; trace := trace w ++ l |}, r) →
  events m w = l ∧ fs (final m w) = f ∧ outcome m w = r.
Proof.
  intros Hrun. unfold events, final, outcome. rewrite Hrun. simpl.
  by rewrite drop_app_length.
Qed.

Lemma augmented_records method recs data :
  augmented method recs = inr data →
  Forall2 (λ r r', add_scaled_lattice_one method r = inr r') recs data.
Proof.
  unfold augmented. revert data.
  induction recs as [|r recs IH]; intros data; simpl.
  - intros [= <-]. constructor.
  - destruct (add_scaled_lattice_one method r) as [?|r'] eqn:Hr; [done|].
    destruct (result_mapM _ recs) as [?|data'] eqn:Hrecs; [done|].
    intros [= <-]. constructor; [done|]. by apply IH.
Qed.

Lemma add_scaled_lattice_one_has method r r' :
  add_scaled_lattice_one method r = inr r' →
  has_scaled_lattice method r'.
Proof.
  unfold add_scaled_lattice_one, has_scaled_lattice.
  destruct (graph_arrays_of r) as [?|g] eqn:Hg; [done|].
  intros [= <-]. exists g. split; [|by rewrite lookup_insert_eq].
  unfold graph_arrays_of, dict_getitem in *.
  by rewrite lookup_insert_ne.
Qed.

Lemma augmented_has_scaled_lattice method recs data :
  augmented method recs = inr data →
  Forall (has_scaled_lattice method) data.
Proof.
  intros Haug. apply augmented_records in Haug.
  induction Haug as [|r r' recs data Hr _ IH]; constructor; [|done].
  by eapply add_scaled_lattice_one_has.
Qed.

(** The four ways the constructor can run: the records are processed
    and pickled; they are processed but the file cannot be opened;
    [preprocess] raises; the file is loaded. *)
Lemma init_cases name path save_path (force_process : bool) prop
    niggli primitive graph_method workers method (w : World) :
  let run := CrystDataset.__init__ name path save_path force_process prop
               niggli primitive graph_method workers method in
  (∃ recs,
     (force_process = true ∨ fs w !! save_path = None) ∧
     preprocess (fs w) path workers niggli primitive graph_method [prop] = inr recs ∧
     open_wb (fs w) save_path = None ∧
     events run w =
       (if force_process then [] else [PathExists save_path]) ++
       [CallPreprocess path workers niggli primitive graph_method [prop];
        Print ("Dump into " +:+ save_path +:+ " ...");
        PickleDump save_path;
        CallAddScaledLatticeProp recs method] ∧
     fs (final run w) = <[save_path := pickle_dumps recs]> (fs w) ∧
     trace (final run w) = trace w ++ events run w ∧
     (∀ d, outcome run w = inr d →
           augmented method recs = inr (CrystDataset.cached_data d)) ∧
     (∀ data, augmented method recs = inr data →
              ∃ d, outcome run w = inr d ∧ CrystDataset.cached_data d = data) ∧
     (∀ e, outcome run w = inl e ↔ augmented method recs = inl e)) ∨
  (∃ recs e,
     (force_process = true ∨ fs w !! save_path = None) ∧
     preprocess (fs w) path workers niggli primitive graph_method [prop] = inr recs ∧
     open_wb (fs w) save_path = Some e ∧
     events run w =
       (if force_process then [] else [PathExists save_path]) ++
       [CallPreprocess path workers niggli primitive graph_method [prop];
        Print ("Dump into " +:+ save_path +:+ " ...");
        PickleDump save_path] ∧
     fs (final run w) = fs w ∧
     trace (final run w) = trace w ++ events run w ∧
     outcome run w = inl e) ∨
  (∃ e,
     (force_process = true ∨ fs w !! save_path = None) ∧
     preprocess (fs w) path workers niggli primitive graph_method [prop] = inl e ∧
     events run w =
       (if force_process then [] else [PathExists save_path]) ++
       [CallPreprocess path workers niggli primitive graph_method [prop]] ∧
     fs (final run w) = fs w ∧
     trace (final run w) = trace w ++ events run w ∧
     outcome run w = inl e) ∨
  (∃ blob,
     force_process = false ∧ fs w !! save_path = Some blob ∧
     fs (final run w) = fs w ∧
     trace (final run w) = trace w ++ events run w ∧
     match pickle_loads blob with
     | Some recs =>
         events run w =
           [PathExists save_path;
            Print ("Load from " +:+ save_path +:+ " ...");
            PickleLoad save_path;
            CallAddScaledLatticeProp recs method] ∧
         (∀ d, outcome run w = inr d →
               augmented method recs = inr (CrystDataset.cached_data d)) ∧
         (∀ data, augmented method recs = inr data →
                  ∃ d, outcome run w = inr d ∧
                       CrystDataset.cached_data d = data) ∧
         (∀ e, outcome run w = inl e ↔ augmented method recs = inl e)
     | None =>
         events run w =
           [PathExists save_path;
            Print ("Load from " +:+ save_path +:+ " ...");
            PickleLoad save_path] ∧
         outcome run w = inl (UnpicklingError save_path)
     end).
Proof.
  intros run. subst run.
  assert (∀ f l r,
    CrystDataset.__init__ name path save_path force_process prop niggli
      primitive graph_method workers method w =
      ({| fs := f; trace := trace w ++ l |}, r) →
    trace (final (CrystDataset.__init__ name path save_path force_process
                    prop niggli primitive graph_method workers method) w) =
    trace w ++ events (CrystDataset.__init__ name path save_path
                         force_process prop niggli primitive graph_method
                         workers method) w) as Hext.
  { intros f l r Hrun. unfold events, final. rewrite Hrun. simpl.
    by rewrite drop_app_length. }
  destruct (decide (force_process = true ∨ fs w !! save_path = None))
    as [Hgo|Hload].
  - destruct (preprocess (fs w) path workers niggli primitive graph_method [prop])
      as [e|recs] eqn:Hpre.
    + right; right; left. exists e.
      pose proof (init_process_raises name _ _ _ _ _ _ _ _ method w e Hgo Hpre)
        as Hrun.
      pose proof (Hext _ _ _ Hrun) as Htrace.
      destruct (run_observed _ _ _ _ _ Hrun) as (Hev & Hfs & Hout).
      by rewrite Htrace, Hev, Hfs, Hout.
    + destruct (open_wb (fs w) save_path) as [e|] eqn:Hopen.
      * right; left. exists recs, e.
        pose proof (init_process_unwritable name _ _ _ _ _ _ _ _ method w
                      recs e Hgo Hpre Hopen) as Hrun.
        pose proof (Hext _ _ _ Hrun) as Htrace.
        destruct (run_observed _ _ _ _ _ Hrun) as (Hev & Hfs & Hout).
        by rewrite Htrace, Hev, Hfs, Hout.
      * left. exists recs.
        pose proof (init_process_ok name _ _ _ _ _ _ _ _ method w recs
                      Hgo Hpre Hopen) as Hrun.
        pose proof (Hext _ _ _ Hrun) as Htrace.
        destruct (run_observed _ _ _ _ _ Hrun) as (Hev & Hfs & Hout).
        rewrite Htrace, Hev, Hfs, Hout.
        do 6 (split; [done|]). unfold augmented.
        destruct (result_mapM _ recs) as [e|data].
        -- split; [done|]. split; [done|].
           intros e'. split; by intros [= ->].
        -- split; [by intros d [= <-]|].
           split; [intros ? [= <-]; by eexists | done].
  - right; right; right.
    destruct force_process; [by destruct Hload; left|].
    destruct (fs w !! save_path) as [blob|] eqn:Hfile;
      [|by destruct Hload; right].
    exists blob. do 2 (split; [done|]).
    pose proof (init_load name path save_path prop niggli primitive
                  graph_method workers method w blob Hfile) as Hrun.
    destruct (pickle_loads blob) as [recs|].
    + pose proof (Hext _ _ _ Hrun) as Htrace.
      destruct (run_observed _ _ _ _ _ Hrun) as (Hev & Hfs & Hout).
      rewrite Htrace, Hev, Hfs, Hout.
      do 3 (split; [done|]). unfold augmented.
      destruct (result_mapM _ recs) as [e|data].
      * split; [done|]. split; [done|].
        intros e'. split; by intros [= ->].
      * split; [by intros d [= <-]|].
        split; [intros ? [= <-]; by eexists | done].
    + pose proof (Hext _ _ _ Hrun) as Htrace.
      destruct (run_observed _ _ _ _ _ Hrun) as (Hev & Hfs & Hout).
      by rewrite Htrace, Hev, Hfs, Hout.
Qed.

Lemma init_returns name path save_path (force_process : bool) prop
    niggli primitive graph_method workers method (w : World) self :
  outcome (CrystDataset.__init__ name path save_path force_process prop
             niggli primitive graph_method workers method) w = inr self →
  self = {| CrystDataset.path := path; CrystDataset.save_path := save_path;
            CrystDataset.force_process := force_process;
            CrystDataset.name := name; CrystDataset.prop := prop;
            CrystDataset.niggli := niggli;
            CrystDataset.primitive := primitive;
            CrystDataset.graph_method := graph_method;
            CrystDataset.lattice_scale_method := method;
            CrystDataset.cached_data := CrystDataset.cached_data self;
            CrystDataset.lattice_scaler := None;
            CrystDataset.scaler := None |}.
Proof.
  destruct (decide (force_process = true ∨ fs w !! save_path = None))
    as [Hgo|Hload].
  - destruct (preprocess (fs w) path workers niggli primitive graph_method [prop])
      as [e|recs] eqn:Hpre.
    + destruct (run_observed _ _ _ _ _
        (init_process_raises name _ _ _ _ _ _ _ _ method w e Hgo Hpre))
        as (_ & _ & ->). done.
    + destruct (open_wb (fs w) save_path) as [e|] eqn:Hopen.
      { destruct (run_observed _ _ _ _ _
          (init_process_unwritable name _ _ _ _ _ _ _ _ method w recs e
             Hgo Hpre Hopen)) as (_ & _ & ->). done. }
      destruct (run_observed _ _ _ _ _
        (init_process_ok name _ _ _ _ _ _ _ _ method w recs Hgo Hpre Hopen))
        as (_ & _ & ->).
      destruct (result_mapM _ recs); [done|]. by intros [= <-].
  - destruct force_process; [by destruct Hload; left|].
    destruct (fs w !! save_path) as [blob|] eqn:Hfile;
      [|by destruct Hload; right].
    pose proof (init_load name path save_path prop niggli primitive
                  graph_method workers method w blob Hfile) as Hrun.
    destruct (pickle_loads blob) as [recs|];
      destruct (run_observed _ _ _ _ _ Hrun) as (_ & _ & ->); [|done].
    destruct (result_mapM _ recs); [done|]. by intros [= <-].
Qed.

End Constructors.

(** ** Indexed access, run to completion *)

Section Access.
Context `{Collaborators}.

Ltac run_getitem :=
  cbv [outcome final CrystDataset.__getitem__ CrystDataset.scaler_transform
       CrystDataset.__len__ TensorCrystDataset.__getitem__
       TensorCrystDataset.__len__
       mbind Py_bind mret Py_ret gets lift raise].

Lemma getitem_frame (self : CrystDataset.t) (index : Z) :
  final (CrystDataset.__getitem__ index) self = self.
Proof.
  run_getitem.
  destruct (list_getitem _ index) as [?|data_dict]; [done|].
  destruct (CrystDataset.scaler self); [|done].
  destruct (dict_getitem data_dict _) as [?|value]; [done|].
  destruct (torch_tensor value); [done|].
  by destruct (graph_arrays_of data_dict).
Qed.

Lemma tensor_getitem_frame (self : TensorCrystDataset.t) (index : Z) :
  final (TensorCrystDataset.__getitem__ index) self = self.
Proof.
  run_getitem.
  destruct (list_getitem _ index) as [?|data_dict]; [done|].
  by destruct (graph_arrays_of data_dict).
Qed.

Lemma getitem_success (self : CrystDataset.t) (index : Z) data :
  outcome (CrystDataset.__getitem__ index) self = inr data ↔
  ∃ data_dict s value tensor g,
    list_getitem (CrystDataset.cached_data self) index = inr data_dict ∧
    CrystDataset.scaler self = Some s ∧
    dict_getitem data_dict (CrystDataset.prop self) = inr value ∧
    torch_tensor value = inr tensor ∧
    graph_arrays_of data_dict = inr g ∧
    data = {| frac_coords := array_map float32 (ga_frac_coords g);
              atom_types := ga_atom_types g;
              lengths := view_1_m1 (float32 <$> ga_lengths g);
              angles := view_1_m1 (float32 <$> ga_angles g);
              edge_index := T (ga_edge_indices g);
              to_jimages := ga_to_jimages g;
              num_atoms := ga_num_atoms g;
              num_bonds := Z.of_nat (nrows (ga_edge_indices g));
              num_nodes := ga_num_atoms g;
              y := Some (tensor_view_1_m1 (transform s tensor)) |}.
Proof.
  run_getitem. split.
  - destruct (list_getitem _ index) as [?|data_dict]; [done|].
    destruct (CrystDataset.scaler self) as [s|]; [|done].
    destruct (dict_getitem data_dict _) as [?|value] eqn:Hvalue; [done|].
    destruct (torch_tensor value) as [?|tensor] eqn:Htensor; [done|].
    destruct (graph_arrays_of data_dict) as [?|g] eqn:Hg; [done|].
    simpl. intros [= <-]. by exists data_dict, s, value, tensor, g.
  - intros (data_dict & s & value & tensor & g & -> & -> & -> & -> & -> & ->).
    reflexivity.
Qed.

Lemma tensor_getitem_success (self : TensorCrystDataset.t) (index : Z) data :
  outcome (TensorCrystDataset.__getitem__ index) self = inr data ↔
  ∃ data_dict g,
    list_getitem (TensorCrystDataset.cached_data self) index = inr data_dict ∧
    graph_arrays_of data_dict = inr g ∧
    data = {| frac_coords := array_map float32 (ga_frac_coords g);
              atom_types := ga_atom_types g;
              lengths := view_1_m1 (float32 <$> ga_lengths g);
              angles := view_1_m1 (float32 <$> ga_angles g);
              edge_index := T (ga_edge_indices g);
              to_jimages := ga_to_jimages g;
              num_atoms := ga_num_atoms g;
              num_bonds := Z.of_nat (nrows (ga_edge_indices g));
              num_nodes := ga_num_atoms g;
              y := None |}.
Proof.
  run_getitem. split.
  - destruct (list_getitem _ index) as [?|data_dict]; [done|].
    destruct (graph_arrays_of data_dict) as [?|g] eqn:Hg; [done|].
    simpl. intros [= <-]. by exists data_dict, g.
  - intros (data_dict & g & -> & -> & ->). reflexivity.
Qed.

(** What every sample graph, of either class, takes from its record. *)
Lemma at_index_success (ds : Facade) (index : Z) data :
  at_index ds index = inr data →
  ∃ data_dict g,
    list_getitem (records ds) index = inr data_dict ∧
    graph_arrays_of data_dict = inr g ∧
    frac_coords data = array_map float32 (ga_frac_coords g) ∧
    atom_types data = ga_atom_types g ∧
    edge_index data = T (ga_edge_indices g) ∧
    to_jimages data = ga_to_jimages g ∧
    num_atoms data = ga_num_atoms g ∧
    num_bonds data = Z.of_nat (nrows (ga_edge_indices g)) ∧
    num_nodes data = ga_num_atoms g.
Proof.
  destruct ds as [d|d]; simpl; intros Hat.
  - apply getitem_success in Hat
      as (data_dict & s & value & tensor & g & ? & ? & ? & ? & ? & ->).
    by exists data_dict, g.
  - apply tensor_getitem_success in Hat as (data_dict & g & ? & ? & ->).
    by exists data_dict, g.
Qed.

(** Access returns a sample as soon as the record is there with its graph
    arrays and, for the labelled class, the scaler and the property. *)
Lemma at_index_returns (ds : Facade) (index : Z) data_dict g :
  list_getitem (records ds) index = inr data_dict →
  graph_arrays_of data_dict = inr g →
  accessible ds data_dict →
  ∃ data, at_index ds index = inr data.
Proof.
  intros Hget Hg Hacc. destruct ds as [d|d]; simpl in *.
  - destruct Hacc as [[s Hs] (value & tensor & Hvalue & Htensor)].
    eexists. apply getitem_success.
    by exists data_dict, s, value, tensor, g.
  - eexists. apply tensor_getitem_success. by exists data_dict, g.
Qed.

Lemma unpack_error_is_value_error (n : nat) :
  is_attribute_error (unpack_error n) = false ∧
  is_index_error (unpack_error n) = false.
Proof. unfold unpack_error. by destruct (n <? 7)%nat. Qed.

(** What a failed look-up of the graph arrays raises is neither an
    [AttributeError] nor an [IndexError]. *)
Lemma graph_arrays_of_raises (data_dict : CachedRecord real) e :
  graph_arrays_of data_dict = inl e →
  is_attribute_error e = false ∧ is_index_error e = false.
Proof.
  unfold graph_arrays_of, dict_getitem.
  destruct (data_dict !! _) as [[g|x|x|a|s]|]; simpl;
    try (by intros [= <-]).
  - case_bool_decide; intros [= <-]; [done|].
    apply unpack_error_is_value_error.
  - case_bool_decide; intros [= <-]; [done|].
    apply unpack_error_is_value_error.
Qed.

Lemma torch_tensor_raises (value : PyValue real) e :
  torch_tensor value = inl e → e = TypeError.
Proof. destruct value; simpl; by intros [= <-]. Qed.

Lemma getitem_index_error (self : CrystDataset.t) (index : Z) :
  outcome (CrystDataset.__getitem__ index) self = inl IndexError ↔
  list_getitem (CrystDataset.cached_data self) index = inl IndexError.
Proof.
  run_getitem.
  destruct (list_getitem _ index) as [e|data_dict];
    [split; by intros [= ->]|].
  destruct (CrystDataset.scaler self); [|done].
  unfold dict_getitem.
  destruct (data_dict !! _) as [value|]; [|done].
  destruct (torch_tensor value) as [e|tensor] eqn:Htensor.
  { apply torch_tensor_raises in Htensor as ->. done. }
  destruct (graph_arrays_of data_dict) as [e|g] eqn:Hg; [|done].
  apply graph_arrays_of_raises in Hg as [_ Hidx].
  split; [|done]. intros [= ->]. done.
Qed.

Lemma tensor_getitem_index_error (self : TensorCrystDataset.t) (index : Z) :
  outcome (TensorCrystDataset.__getitem__ index) self = inl IndexError ↔
  list_getitem (TensorCrystDataset.cached_data self) index = inl IndexError.
Proof.
  run_getitem.
  destruct (list_getitem _ index) as [e|data_dict];
    [split; by intros [= ->]|].
  destruct (graph_arrays_of data_dict) as [e|g] eqn:Hg; [|done].
  apply graph_arrays_of_raises in Hg as [_ Hidx].
  split; [|done]. intros [= ->]. done.
Qed.

Lemma list_getitem_index_error {A} (l : list A) (index : Z) :
  list_getitem l index = inl IndexError ↔
  index < - Z.of_nat (length l) ∨ Z.of_nat (length l) <= index.
Proof.
  split; [|apply list_getitem_out_of_range].
  intros Herr.
  destruct (decide (index < - Z.of_nat (length l) ∨ Z.of_nat (length l) <= index))
    as [|Hin]; [done|].
  destruct (decide (index < 0)).
  - rewrite list_getitem_negative in Herr by lia.
    destruct (list_getitem_in_range l (index + Z.of_nat (length l)))
      as (x & _ & Hx); [lia|congruence].
  - destruct (list_getitem_in_range l index) as (x & _ & Hx); [lia|congruence].
Qed.

Lemma at_index_ext (ds : Facade) (i j : Z) :
  list_getitem (records ds) i = list_getitem (records ds) j →
  at_index ds i = at_index ds j.
Proof.
  destruct ds as [d|d]; simpl; run_getitem; by intros ->.
Qed.

Lemma at_index_index_error (ds : Facade) (index : Z) :
  at_index ds index = inl IndexError ↔
  list_getitem (records ds) index = inl IndexError.
Proof.
  destruct ds as [d|d]; simpl;
    [apply getitem_index_error | apply tensor_getitem_index_error].
Qed.

Lemma run_twice {S A} (m : Py S A) (s : S) :
  final m s = s →
  (a ← m; b ← m; mret (a, b)) s =
  (s, match outcome m s with inr x => inr (x, x) | inl e => inl e end).
Proof.
  unfold final, outcome. cbv [mbind Py_bind mret Py_ret].
  destruct (m s) as [s' [e|x]] eqn:Hm; simpl; intros ->; [done|].
  by rewrite Hm.
Qed.

End Access.

(** * The claims *)

Section Claims.
Context `{Collaborators}.

(** C1 (amended).  On a labelled dataset whose scaler is still [None],
    every indexed access raises and no target is computed: an index
    outside [-len, len) raises [IndexError], and every other index raises
    the [AttributeError] of looking up [transform] on [None].  The
    dataset is left as it was. *)
Theorem C1_unset_scaler_access_raises (self : CrystDataset.t) (index : Z) :
  CrystDataset.scaler self = None →
  let n := Z.of_nat (length (CrystDataset.cached_data self)) in
  CrystDataset.__getitem__ index self =
  (self,
   inl (if bool_decide (- n <= index < n)
        then AttributeError "NoneType" "transform"
        else IndexError)).
Proof.
  intros Hnone n.
  cbv [CrystDataset.__getitem__ CrystDataset.scaler_transform
       mbind Py_bind mret Py_ret gets lift raise].
  rewrite Hnone. case_bool_decide as Hin.
  - destruct (list_getitem _ index) as [e|data_dict] eqn:Hget; [|done].
    exfalso.
    destruct (decide (index < 0)).
    + rewrite list_getitem_negative in Hget by (subst n; lia).
      destruct (list_getitem_in_range (CrystDataset.cached_data self)
                  (index + n)) as (x & _ & Hx); [lia|].
      subst n. congruence.
    + destruct (list_getitem_in_range (CrystDataset.cached_data self) index)
        as (x & _ & Hx); [lia|congruence].
  - rewrite list_getitem_out_of_range by (subst n; lia). done.
Qed.

(** C3 (amended).  For both classes, indexed access raises the
    out-of-range error exactly when [index < -len] or [index >= len]; an
    index with [-len <= index < 0] is read as [index + len], an offset
    from the end. *)
Theorem C3_index_error_iff_beyond_both_ends (ds : Facade) (index : Z) :
  let n := Z.of_nat (length (records ds)) in
  length_of ds = inr n ∧
  (at_index ds index = inl IndexError ↔ index < - n ∨ n <= index) ∧
  (- n <= index < 0 → at_index ds index = at_index ds (index + n)).
Proof.
  intros n. split; [by destruct ds|]. split.
  - rewrite at_index_index_error. apply list_getitem_index_error.
  - intros Hneg. apply at_index_ext. by apply list_getitem_negative.
Qed.

(** C10.  For both classes, [len] and indexed access (successful or not)
    leave the dataset object unchanged; hence the length read after an
    access is the length read before it, and two successive accesses at
    the same index give the same sample graph. *)
Theorem C10_len_and_access_leave_dataset_unchanged
    (d : CrystDataset.t) (td : TensorCrystDataset.t) (index : Z) :
  (final CrystDataset.__len__ d = d ∧
   final (CrystDataset.__getitem__ index) d = d ∧
   (n ← CrystDataset.__len__; CrystDataset.__getitem__ index;;
    m ← CrystDataset.__len__; mret (n, m)) d =
   (d, match outcome (CrystDataset.__getitem__ index) d with
       | inr _ => let n := Z.of_nat (length (CrystDataset.cached_data d)) in
                  inr (n, n)
       | inl e => inl e
       end) ∧
   (a ← CrystDataset.__getitem__ index; b ← CrystDataset.__getitem__ index;
    mret (a, b)) d =
   (d, match outcome (CrystDataset.__getitem__ index) d with
       | inr x => inr (x, x)
       | inl e => inl e
       end)) ∧
  (final TensorCrystDataset.__len__ td = td ∧
   final (TensorCrystDataset.__getitem__ index) td = td ∧
   (n ← TensorCrystDataset.__len__; TensorCrystDataset.__getitem__ index;;
    m ← TensorCrystDataset.__len__; mret (n, m)) td =
   (td, match outcome (TensorCrystDataset.__getitem__ index) td with
        | inr _ =>
            let n := Z.of_nat (length (TensorCrystDataset.cached_data td)) in
            inr (n, n)
        | inl e => inl e
        end) ∧
   (a ← TensorCrystDataset.__getitem__ index;
    b ← TensorCrystDataset.__getitem__ index; mret (a, b)) td =
   (td, match outcome (TensorCrystDataset.__getitem__ index) td with
        | inr x => inr (x, x)
        | inl e => inl e
        end)).
Proof.
  split.
  - split; [done|]. split; [apply getitem_frame|]. split.
    + pose proof (getitem_frame d index) as Hframe.
      unfold final, outcome in *.
      cbv [mbind Py_bind mret Py_ret CrystDataset.__len__ gets].
      destruct (CrystDataset.__getitem__ index d) as [d' [e|x]];
        simpl in *; by subst.
    + apply run_twice, getitem_frame.
  - split; [done|]. split; [apply tensor_getitem_frame|]. split.
    + pose proof (tensor_getitem_frame td index) as Hframe.
      unfold final, outcome in *.
      cbv [mbind Py_bind mret Py_ret TensorCrystDataset.__len__ gets].
      destruct (TensorCrystDataset.__getitem__ index td) as [d' [e|x]];
        simpl in *; by subst.
    + apply run_twice, tensor_getitem_frame.
Qed.

(** C4.  For a valid index of either class, when the record stores an
    M×2 edge list (and, for the labelled class, the scaler and the
    property are there), indexed access returns a sample graph whose
    [edge_index] is the transpose of that list: a 2×M array whose column
    [j] holds the [j]-th stored pair, with the stored local atom indices
    and nothing added to them. *)
Theorem C4_edge_index_is_transposed_edge_list
    (ds : Facade) (index : Z) data_dict g :
  list_getitem (records ds) index = inr data_dict →
  graph_arrays_of data_dict = inr g →
  edge_list_shape g →
  accessible ds data_dict →
  ∃ data,
    at_index ds index = inr data ∧
    edge_index data = T (ga_edge_indices g) ∧
    shape (edge_index data) = (2%nat, nrows (ga_edge_indices g)) ∧
    wf_array (edge_index data) ∧
    ∀ j, (j < nrows (ga_edge_indices g))%nat →
      ∃ u v, rows (ga_edge_indices g) !! j = Some [u; v] ∧
             item (edge_index data) 0 j = Some u ∧
             item (edge_index data) 1 j = Some v.
Proof.
  intros Hget Hg [Hwf Hcols] Hacc.
  destruct (at_index_returns ds index data_dict g Hget Hg Hacc) as [data Hat].
  exists data. split; [exact Hat|].
  apply at_index_success in Hat
    as (data_dict' & g' & Hget' & Hg' & _ & _ & Hedge & _).
  rewrite Hget in Hget'. injection Hget' as <-.
  rewrite Hg in Hg'. injection Hg' as <-.
  rewrite Hedge. split; [done|]. split; [by rewrite T_shape, Hcols|].
  split; [by apply T_wf|].
  intros j Hj.
  destruct (lookup_lt_is_Some_2 (rows (ga_edge_indices g)) j Hj) as [r Hr].
  assert (length r = 2%nat) as Hlen.
  { rewrite <- Hcols. unfold wf_array in Hwf. rewrite Forall_forall in Hwf.
    apply Hwf. by eapply list_elem_of_lookup_2. }
  destruct r as [|u [|v [|? ?]]]; try done.
  exists u, v. split; [done|].
  rewrite !item_T by (done || lia).
  unfold item. by rewrite Hr.
Qed.

(** C5.  For a valid index of either class whose record satisfies the
    invariant of the data model (and, for the labelled class, with the
    scaler and the property there), indexed access returns a sample graph
    whose atom count is the row count of its coordinate array (and the
    length of its atom types), and whose bond count is the row count of
    the stored edge list before the transpose (the column count after
    it). *)
Theorem C5_counts_match_array_rows
    (ds : Facade) (index : Z) data_dict g :
  list_getitem (records ds) index = inr data_dict →
  graph_arrays_of data_dict = inr g →
  record_invariant g →
  accessible ds data_dict →
  ∃ data,
    at_index ds index = inr data ∧
    num_atoms data = Z.of_nat (nrows (frac_coords data)) ∧
    num_atoms data = Z.of_nat (length (atom_types data)) ∧
    num_bonds data = Z.of_nat (nrows (ga_edge_indices g)) ∧
    num_bonds data = Z.of_nat (ncols (edge_index data)) ∧
    num_bonds data = Z.of_nat (nrows (to_jimages data)) ∧
    num_nodes data = num_atoms data.
Proof.
  intros Hget Hg (Hcoords & Htypes & Himages) Hacc.
  destruct (at_index_returns ds index data_dict g Hget Hg Hacc) as [data Hat].
  exists data. split; [exact Hat|].
  apply at_index_success in Hat
    as (data_dict' & g' & Hget' & Hg' & -> & -> & -> & -> & -> & -> & ->).
  rewrite Hget in Hget'. injection Hget' as <-.
  rewrite Hg in Hg'. injection Hg' as <-.
  rewrite array_map_nrows, Himages. done.
Qed.


(** C6.  Constructing either class calls [add_scaled_lattice_prop] at
    most once, and a construction that returns a dataset has called it
    exactly once, as its last step, on the whole list of records just
    obtained (returned by the preprocessing function, or unpickled from
    the file); the dataset it returns has no scaler and no lattice scaler
    attached yet. *)
Theorem C6_augmentation_runs_once
    name path save_path (force_process : bool) prop niggli primitive
    graph_method workers method
    crystal_array_list niggli' primitive' graph_method' workers' method'
    (w : World) :
  let run := CrystDataset.__init__ name path save_path force_process prop
               niggli primitive graph_method workers method in
  let run' := TensorCrystDataset.__init__ crystal_array_list niggli'
                primitive' graph_method' workers' method' in
  (count_events is_augmentation (events run w) ≤ 1)%nat ∧
  (count_events is_augmentation (events run' w) ≤ 1)%nat ∧
  (∀ d, outcome run w = inr d →
     ∃ before recs,
       events run w = before ++ [CallAddScaledLatticeProp recs method] ∧
       count_events is_augmentation before = 0%nat ∧
       ((preprocess (fs w) path workers niggli primitive graph_method [prop]
           = inr recs ∧
         CallPreprocess path workers niggli primitive graph_method [prop]
           ∈ before) ∨
        (∃ blob, fs w !! save_path = Some blob ∧
                 pickle_loads blob = Some recs ∧
                 PickleLoad save_path ∈ before)) ∧
       augmented method recs = inr (CrystDataset.cached_data d) ∧
       CrystDataset.lattice_scaler d = None ∧
       CrystDataset.scaler d = None) ∧
  (∀ d, outcome run' w = inr d →
     ∃ recs,
       events run' w =
         [CallPreprocessTensors crystal_array_list niggli' primitive'
            graph_method';
          CallAddScaledLatticeProp recs method'] ∧
       preprocess_tensors crystal_array_list niggli' primitive' graph_method'
         = inr recs ∧
       augmented method' recs = inr (TensorCrystDataset.cached_data d) ∧
       TensorCrystDataset.lattice_scaler d = None ∧
       TensorCrystDataset.scaler d = None).
Proof.
  intros run run'.
  assert ((count_events is_augmentation (events run' w) ≤ 1)%nat ∧
    ∀ d, outcome run' w = inr d →
     ∃ recs,
       events run' w =
         [CallPreprocessTensors crystal_array_list niggli' primitive'
            graph_method';
          CallAddScaledLatticeProp recs method'] ∧
       preprocess_tensors crystal_array_list niggli' primitive' graph_method'
         = inr recs ∧
       augmented method' recs = inr (TensorCrystDataset.cached_data d) ∧
       TensorCrystDataset.lattice_scaler d = None ∧
       TensorCrystDataset.scaler d = None) as [Hcount' Hrun'].
  { subst run'.
    pose proof (tensor_init_run crystal_array_list niggli' primitive'
                  graph_method' workers' method' w) as Hrun.
    destruct (preprocess_tensors _ _ _ _) as [e|recs];
      destruct (run_observed _ _ _ _ _ Hrun) as (-> & _ & ->).
    - split; [cbv; lia | done].
    - split; [cbv; lia|]. intros d Hd. exists recs. unfold augmented.
      destruct (result_mapM _ recs); [done|]. by injection Hd as <-. }
  assert ((count_events is_augmentation (events run w) ≤ 1)%nat ∧
    ∀ d, outcome run w = inr d →
     ∃ before recs,
       events run w = before ++ [CallAddScaledLatticeProp recs method] ∧
       count_events is_augmentation before = 0%nat ∧
       ((preprocess (fs w) path workers niggli primitive graph_method [prop]
           = inr recs ∧
         CallPreprocess path workers niggli primitive graph_method [prop]
           ∈ before) ∨
        (∃ blob, fs w !! save_path = Some blob ∧
                 pickle_loads blob = Some recs ∧
                 PickleLoad save_path ∈ before)) ∧
       augmented method recs = inr (CrystDataset.cached_data d) ∧
       CrystDataset.lattice_scaler d = None ∧
       CrystDataset.scaler d = None) as [Hcount Hrun]; [|done].
  subst run.
  destruct (decide (force_process = true ∨ fs w !! save_path = None))
    as [Hgo|Hload].
  - destruct (preprocess (fs w) path workers niggli primitive graph_method [prop])
      as [e|recs] eqn:Hpre.
    + destruct (run_observed _ _ _ _ _
        (init_process_raises name _ _ _ _ _ _ _ _ method w e Hgo Hpre))
        as (-> & _ & ->).
      split; [destruct force_process; cbv; lia | done].
    + destruct (open_wb (fs w) save_path) as [e|] eqn:Hopen.
      { destruct (run_observed _ _ _ _ _
          (init_process_unwritable name _ _ _ _ _ _ _ _ method w recs e
             Hgo Hpre Hopen)) as (-> & _ & ->).
        split; [destruct force_process; cbv; lia | done]. }
      destruct (run_observed _ _ _ _ _
        (init_process_ok name _ _ _ _ _ _ _ _ method w recs Hgo Hpre Hopen))
        as (-> & _ & ->).
      split; [destruct force_process; cbv; lia|].
      intros d Hd.
      exists ((if force_process then [] else [PathExists save_path]) ++
              [CallPreprocess path workers niggli primitive graph_method [prop];
               Print ("Dump into " +:+ save_path +:+ " ...");
               PickleDump save_path]), recs.
      split; [by rewrite <- app_assoc|].
      split; [by destruct force_process|].
      split; [left; split; [done|]; destruct force_process; simpl;
              repeat constructor|].
      unfold augmented. destruct (result_mapM _ recs); [done|].
      by injection Hd as <-.
  - destruct force_process; [by destruct Hload; left|].
    destruct (fs w !! save_path) as [blob|] eqn:Hfile;
      [|by destruct Hload; right].
    pose proof (init_load name path save_path prop niggli primitive
                  graph_method workers method w blob Hfile) as Hrun.
    destruct (pickle_loads blob) as [recs|] eqn:Hblob;
      destruct (run_observed _ _ _ _ _ Hrun) as (-> & _ & ->).
    + split; [cbv; lia|]. intros d Hd.
      exists [PathExists save_path;
              Print ("Load from " +:+ save_path +:+ " ...");
              PickleLoad save_path], recs.
      split; [done|]. split; [done|].
      split; [right; exists blob; repeat split; [done | repeat constructor]|].
      unfold augmented. destruct (result_mapM _ recs); [done|].
      by injection Hd as <-.
    + split; [cbv; lia | done].
Qed.

(** C7.  Constructing the label-free dataset from in-memory crystal
    arrays leaves the file system as it was and makes no file access: its
    first step is the call of [preprocess_tensors] on the given list, and
    nothing is pickled.  Every sample graph of a label-free dataset has no
    target ([y] is absent). *)
Theorem C7_label_free_touches_no_file_and_has_no_target
    crystal_array_list niggli primitive graph_method workers method
    (w : World) :
  let run := TensorCrystDataset.__init__ crystal_array_list niggli primitive
               graph_method workers method in
  fs (final run w) = fs w ∧
  count_events is_file_access (events run w) = 0%nat ∧
  head (events run w) =
    Some (CallPreprocessTensors crystal_array_list niggli primitive
            graph_method) ∧
  (∀ d, outcome run w = inr d →
     ∃ recs, preprocess_tensors crystal_array_list niggli primitive
               graph_method = inr recs ∧
             augmented method recs = inr (TensorCrystDataset.cached_data d)) ∧
  ∀ (d : TensorCrystDataset.t) index data,
    at_index (LabelFree d) index = inr data → y data = None.
Proof.
  intros run. subst run.
  pose proof (tensor_init_run crystal_array_list niggli primitive
                graph_method workers method w) as Hrun.
  split; [|split; [|split; [|split]]].
  - destruct (preprocess_tensors _ _ _ _);
      by destruct (run_observed _ _ _ _ _ Hrun) as (_ & -> & _).
  - destruct (preprocess_tensors _ _ _ _);
      by destruct (run_observed _ _ _ _ _ Hrun) as (-> & _ & _).
  - destruct (preprocess_tensors _ _ _ _);
      by destruct (run_observed _ _ _ _ _ Hrun) as (-> & _ & _).
  - intros d Hd.
    destruct (preprocess_tensors _ _ _ _) as [e|recs];
      destruct (run_observed _ _ _ _ _ Hrun) as (_ & _ & Hout);
      rewrite Hout in Hd; [done|].
    exists recs. split; [done|]. unfold augmented.
    destruct (result_mapM _ recs); [done|]. by injection Hd as <-.
  - intros d index data Hat. simpl in Hat.
    by apply tensor_getitem_success in Hat as (? & ? & _ & _ & ->).
Qed.

(** C9.  When the labelled dataset is constructed by processing, the
    records are pickled before [add_scaled_lattice_prop] runs: the file
    holds the records exactly as [preprocess] returned them, not the
    augmented ones, while the dataset's own records all carry
    [scaled_lattice].  A later construction that loads that file calls
    [add_scaled_lattice_prop] again, on the records as stored and with
    its own policy, so the value is recomputed on every construction.
    (When the file cannot be opened for writing, the construction raises
    before the augmentation and nothing is stored.) *)
Theorem C9_pickled_before_augmentation
    name path save_path (force_process : bool) prop niggli primitive
    graph_method workers method (w : World) recs :
  force_process = true ∨ fs w !! save_path = None →
  preprocess (fs w) path workers niggli primitive graph_method [prop] = inr recs →
  let run := CrystDataset.__init__ name path save_path force_process prop
               niggli primitive graph_method workers method in
  match open_wb (fs w) save_path with
  | Some e =>
      outcome run w = inl e ∧
      fs (final run w) = fs w ∧
      count_events is_augmentation (events run w) = 0%nat
  | None =>
      fs (final run w) !! save_path = Some (pickle_dumps recs) ∧
      pickle_loads (pickle_dumps recs) = Some recs ∧
      (∃ before,
         events run w =
           before ++
           [PickleDump save_path; CallAddScaledLatticeProp recs method] ∧
         count_events is_augmentation before = 0%nat) ∧
      (∀ d, outcome run w = inr d →
         augmented method recs = inr (CrystDataset.cached_data d) ∧
         Forall (has_scaled_lattice method) (CrystDataset.cached_data d)) ∧
      (∀ data, augmented method recs = inr data →
         ∃ d, outcome run w = inr d ∧ CrystDataset.cached_data d = data) ∧
      ∀ name' path' prop' niggli' primitive' graph_method' workers' method'
        (w' : World),
        fs w' !! save_path = fs (final run w) !! save_path →
        let rerun := CrystDataset.__init__ name' path' save_path false prop'
                       niggli' primitive' graph_method' workers' method' in
        events rerun w' =
          [PathExists save_path;
           Print ("Load from " +:+ save_path +:+ " ...");
           PickleLoad save_path;
           CallAddScaledLatticeProp recs method'] ∧
        (∀ d', outcome rerun w' = inr d' →
           augmented method' recs = inr (CrystDataset.cached_data d') ∧
           Forall (has_scaled_lattice method') (CrystDataset.cached_data d')) ∧
        (∀ data, augmented method' recs = inr data →
           ∃ d', outcome rerun w' = inr d' ∧
                 CrystDataset.cached_data d' = data)
  end.
Proof.
  intros Hgo Hpre run. subst run.
  destruct (open_wb (fs w) save_path) as [e|] eqn:Hopen.
  { destruct (run_observed _ _ _ _ _
      (init_process_unwritable name _ _ _ _ _ _ _ _ method w recs e
         Hgo Hpre Hopen)) as (-> & -> & ->).
    split; [done|]. split; [done|]. by destruct force_process. }
  destruct (run_observed _ _ _ _ _
    (init_process_ok name _ _ _ _ _ _ _ _ method w recs Hgo Hpre Hopen))
    as (Hevents & Hfs & Hout).
  rewrite Hevents, Hfs, Hout. clear Hevents Hfs Hout.
  split; [by rewrite lookup_insert_eq|].
  split; [apply pickle_loads_dumps|].
  split.
  { exists ((if force_process then [] else [PathExists save_path]) ++
            [CallPreprocess path workers niggli primitive graph_method [prop];
             Print ("Dump into " +:+ save_path +:+ " ...")]).
    split; [by rewrite <- app_assoc | by destruct force_process]. }
  split.
  { intros d Hd.
    assert (augmented method recs = inr (CrystDataset.cached_data d)) as Haug.
    { unfold augmented. destruct (result_mapM _ recs); [done|].
      by injection Hd as <-. }
    split; [done|]. by eapply augmented_has_scaled_lattice. }
  split.
  { intros data Haug. unfold augmented in Haug. rewrite Haug. by eexists. }
  intros name' path' prop' niggli' primitive' graph_method' workers' method'
    w' Hfile rerun. subst rerun.
  rewrite lookup_insert_eq in Hfile.
  pose proof (init_load name' path' save_path prop' niggli' primitive'
                graph_method' workers' method' w' _ Hfile) as Hrun.
  rewrite pickle_loads_dumps in Hrun.
  destruct (run_observed _ _ _ _ _ Hrun) as (-> & _ & ->).
  split; [done|]. split.
  - intros d' Hd'.
    assert (augmented method' recs = inr (CrystDataset.cached_data d')) as Haug.
    { unfold augmented. destruct (result_mapM _ recs); [done|].
      by injection Hd' as <-. }
    split; [done|]. by eapply augmented_has_scaled_lattice.
  - intros data Haug. unfold augmented in Haug. rewrite Haug. by eexists.
Qed.

(** C8 (amended).  The summary of a labelled dataset is
    [CrystDataset(self.name=…, self.path=…, self.save_path=…)] with the
    [repr] of the name and of the two paths, and nothing else: it is the
    same for any two datasets that agree on these three.  The property
    name, the two flags, the graph method and the lattice-scaling policy
    are kept verbatim on the constructed dataset object. *)
Theorem C8_summary_shows_name_and_paths_only (d : CrystDataset.t) :
  CrystDataset.__repr__ d =
    (d, inr ("CrystDataset(self.name=" +:+ repr_str (CrystDataset.name d) +:+
             ", self.path=" +:+ repr_str (CrystDataset.path d) +:+
             ", self.save_path=" +:+ repr_str (CrystDataset.save_path d) +:+
             ")")) ∧
  (∀ d' : CrystDataset.t,
     CrystDataset.name d' = CrystDataset.name d →
     CrystDataset.path d' = CrystDataset.path d →
     CrystDataset.save_path d' = CrystDataset.save_path d →
     summary (Labelled d') = summary (Labelled d)) ∧
  ∀ name path save_path force_process prop niggli primitive graph_method
    workers method (w : World) self,
    outcome (CrystDataset.__init__ name path save_path force_process prop
               niggli primitive graph_method workers method) w = inr self →
    CrystDataset.name self = name ∧
    CrystDataset.path self = path ∧
    CrystDataset.save_path self = save_path ∧
    CrystDataset.prop self = prop ∧
    CrystDataset.niggli self = niggli ∧
    CrystDataset.primitive self = primitive ∧
    CrystDataset.graph_method self = graph_method ∧
    CrystDataset.lattice_scale_method self = method.
Proof.
  split; [done|]. split.
  - intros d' Hname Hpath Hsave. simpl.
    unfold outcome, CrystDataset.__repr__.
    cbv [mbind Py_bind mret Py_ret gets]. simpl.
    by rewrite Hname, Hpath, Hsave.
  - intros name path save_path force_process prop niggli primitive
      graph_method workers method w self Hself.
    apply init_returns in Hself. by rewrite Hself.
Qed.

End Claims.

(** * The claims on the concrete instantiation *)

Section Concrete.
Import Sample.

Example train_dataset_constructed :
  outcome train_init empty_world = inr train_dataset ∧
  length_of (Labelled train_dataset) = inr 3.
Proof. split; reflexivity. Qed.

Example fitted_sample_at_1 :
  at_index (Labelled fitted_dataset) 1 = inr second_sample.
Proof. reflexivity. Qed.

Example tensor_dataset_constructed :
  outcome tensor_init empty_world = inr tensor_dataset ∧
  fs (final tensor_init empty_world) = ∅ ∧
  length_of (LabelFree tensor_dataset) = inr 2.
Proof. repeat split; reflexivity. Qed.

(** C1, as stated, fails: the dataset just constructed has no scaler, and
    access at index 0 raises the [AttributeError] of [None.transform],
    not a dedicated error. *)
Lemma C1_attribute_error_counterexample :
  outcome train_init empty_world = inr train_dataset ∧
  CrystDataset.scaler train_dataset = None ∧
  at_index (Labelled train_dataset) 0 =
    inl (AttributeError "NoneType" "transform") ∧
  ¬ (∃ e, at_index (Labelled train_dataset) 0 = inl e ∧
          is_attribute_error e = false) ∧
  at_index (Labelled train_dataset) 0 ≠ inl scaler_not_set.
Proof.
  split; [reflexivity|]. split; [reflexivity|].
  assert (at_index (Labelled train_dataset) 0 =
            inl (AttributeError "NoneType" "transform")) as Hat
    by (reflexivity).
  split; [exact Hat|]. rewrite Hat. split.
  - intros (e & [= <-] & Hno). discriminate Hno.
  - discriminate.
Qed.

Lemma C1_witness :
  CrystDataset.scaler train_dataset = None ∧
  CrystDataset.__getitem__ 1 train_dataset =
    (train_dataset, inl (AttributeError "NoneType" "transform")) ∧
  CrystDataset.__getitem__ 3 train_dataset = (train_dataset, inl IndexError).
Proof.
  split; [reflexivity|]. split.
  - exact (C1_unset_scaler_access_raises train_dataset 1 eq_refl).
  - exact (C1_unset_scaler_access_raises train_dataset 3 eq_refl).
Defined.

(** C3, as stated, fails: index -1 is negative, yet both classes return
    the last sample for it. *)
Lemma C3_negative_index_counterexample :
  -1 < 0 ∧
  at_index (LabelFree tensor_dataset) (-1) = at_index (LabelFree tensor_dataset) 1 ∧
  (∃ data, at_index (LabelFree tensor_dataset) (-1) = inr data ∧
           num_atoms data = 3) ∧
  (∃ data, at_index (Labelled fitted_dataset) (-1) = inr data ∧
           num_atoms data = 4) ∧
  ¬ (∃ e, at_index (LabelFree tensor_dataset) (-1) = inl e) ∧
  ¬ (∃ e, at_index (Labelled fitted_dataset) (-1) = inl e).
Proof.
  split; [lia|]. split; [reflexivity|].
  split; [eexists; split; reflexivity|].
  split; [eexists; split; reflexivity|].
  assert (at_index (LabelFree tensor_dataset) (-1) =
            at_index (LabelFree tensor_dataset) 1) as -> by reflexivity.
  assert (at_index (Labelled fitted_dataset) (-1) =
            at_index (Labelled fitted_dataset) 2) as -> by reflexivity.
  split; intros [e He]; discriminate He.
Qed.

Lemma C3_witness :
  (5 < - 2 ∨ 2 <= 5) ∧
  at_index (LabelFree tensor_dataset) 5 = inl IndexError ∧
  at_index (Labelled train_dataset) (-4) = inl IndexError ∧
  at_index (Labelled fitted_dataset) (-1) = at_index (Labelled fitted_dataset) 2.
Proof.
  split; [right; lia|]. split; [|split].
  - destruct (C3_index_error_iff_beyond_both_ends
                (LabelFree tensor_dataset) 5) as (_ & Hiff & _).
    apply Hiff. right. change (2 <= 5). lia.
  - destruct (C3_index_error_iff_beyond_both_ends
                (Labelled train_dataset) (-4)) as (_ & Hiff & _).
    apply Hiff. left. change (-4 < -3). lia.
  - destruct (C3_index_error_iff_beyond_both_ends
                (Labelled fitted_dataset) (-1)) as (_ & _ & Hneg).
    apply Hneg. change (-3 <= -1 < 0). lia.
Defined.

Lemma C4_witness :
  list_getitem (records (Labelled fitted_dataset)) 1 = inr second_record ∧
  list_getitem (records (LabelFree tensor_dataset)) 1
    = inr SampleMore.tensor_record ∧
  graph_arrays_of second_record = inr second_graph ∧
  graph_arrays_of SampleMore.tensor_record = inr second_graph ∧
  edge_list_shape second_graph ∧
  accessible (Labelled fitted_dataset) second_record ∧
  accessible (LabelFree tensor_dataset) SampleMore.tensor_record ∧
  (∃ data, at_index (Labelled fitted_dataset) 1 = inr data ∧
           shape (edge_index data) = (2%nat, 6%nat) ∧
           item (edge_index data) 0 2 = Some 2 ∧
           item (edge_index data) 1 2 = Some 0) ∧
  (∃ data, at_index (LabelFree tensor_dataset) 1 = inr data ∧
           shape (edge_index data) = (2%nat, 6%nat) ∧
           item (edge_index data) 0 2 = Some 2 ∧
           item (edge_index data) 1 2 = Some 0).
Proof.
  assert (list_getitem (records (Labelled fitted_dataset)) 1 = inr second_record)
    as Hget by reflexivity.
  assert (list_getitem (records (LabelFree tensor_dataset)) 1
            = inr SampleMore.tensor_record) as Hget' by reflexivity.
  assert (graph_arrays_of second_record = inr second_graph)
    as Hg by reflexivity.
  assert (graph_arrays_of SampleMore.tensor_record = inr second_graph)
    as Hg' by reflexivity.
  assert (edge_list_shape second_graph)
    as Hshape by (split; [repeat constructor | reflexivity]).
  assert (accessible (Labelled fitted_dataset) second_record) as Hacc.
  { split; [by eexists | eexists _, _; split; reflexivity]. }
  assert (accessible (LabelFree tensor_dataset) SampleMore.tensor_record)
    as Hacc' by exact I.
  assert (∀ ds data_dict,
    list_getitem (records ds) 1 = inr data_dict →
    graph_arrays_of data_dict = inr second_graph →
    accessible ds data_dict →
    ∃ data, at_index ds 1 = inr data ∧
            shape (edge_index data) = (2%nat, 6%nat) ∧
            item (edge_index data) 0 2 = Some 2 ∧
            item (edge_index data) 1 2 = Some 0) as Hboth.
  { intros ds data_dict Hds Hgraph Hok.
    destruct (C4_edge_index_is_transposed_edge_list
                ds 1 data_dict second_graph Hds Hgraph Hshape Hok)
      as (data & Hat & _ & Hsh & _ & Hcol).
    destruct (Hcol 2%nat) as (u & v & Hrow & H0 & H1);
      [change (2 < 6)%nat; lia|].
    assert (Some [u; v] = Some [2; 0]) as Huv by (rewrite <- Hrow; reflexivity).
    injection Huv as -> ->.
    exact (ex_intro _ data (conj Hat (conj Hsh (conj H0 H1)))). }
  exact (conj Hget (conj Hget' (conj Hg (conj Hg' (conj Hshape (conj Hacc
           (conj Hacc'
              (conj (Hboth _ _ Hget Hg Hacc) (Hboth _ _ Hget' Hg' Hacc')))))))))
  .
Defined.

Lemma C5_witness :
  list_getitem (records (Labelled fitted_dataset)) 1 = inr second_record ∧
  list_getitem (records (LabelFree tensor_dataset)) 1
    = inr SampleMore.tensor_record ∧
  graph_arrays_of second_record = inr second_graph ∧
  graph_arrays_of SampleMore.tensor_record = inr second_graph ∧
  record_invariant second_graph ∧
  accessible (Labelled fitted_dataset) second_record ∧
  accessible (LabelFree tensor_dataset) SampleMore.tensor_record ∧
  (∃ data, at_index (Labelled fitted_dataset) 1 = inr data ∧
           num_atoms data = 3 ∧ nrows (frac_coords data) = 3%nat ∧
           num_bonds data = 6) ∧
  (∃ data, at_index (LabelFree tensor_dataset) 1 = inr data ∧
           num_atoms data = 3 ∧ nrows (frac_coords data) = 3%nat ∧
           num_bonds data = 6).
Proof.
  assert (list_getitem (records (Labelled fitted_dataset)) 1 = inr second_record)
    as Hget by reflexivity.
  assert (list_getitem (records (LabelFree tensor_dataset)) 1
            = inr SampleMore.tensor_record) as Hget' by reflexivity.
  assert (graph_arrays_of second_record = inr second_graph)
    as Hg by reflexivity.
  assert (graph_arrays_of SampleMore.tensor_record = inr second_graph)
    as Hg' by reflexivity.
  assert (record_invariant second_graph)
    as Hinv by (repeat split; reflexivity).
  assert (accessible (Labelled fitted_dataset) second_record) as Hacc.
  { split; [by eexists | eexists _, _; split; reflexivity]. }
  assert (accessible (LabelFree tensor_dataset) SampleMore.tensor_record)
    as Hacc' by exact I.
  assert (∀ ds data_dict,
    list_getitem (records ds) 1 = inr data_dict →
    graph_arrays_of data_dict = inr second_graph →
    accessible ds data_dict →
    ∃ data, at_index ds 1 = inr data ∧
            num_atoms data = 3 ∧ nrows (frac_coords data) = 3%nat ∧
            num_bonds data = 6) as Hboth.
  { intros ds data_dict Hds Hgraph Hok.
    destruct (C5_counts_match_array_rows
                ds 1 data_dict second_graph Hds Hgraph Hinv Hok)
      as (data & Hat & Hatoms & _ & Hbonds & _).
    assert (num_atoms data = 3) as Hthree.
    { apply at_index_success in Hat
        as (dd & g & Hdd & Hgg & _ & _ & _ & _ & Hn & _).
      rewrite Hds in Hdd. injection Hdd as <-.
      rewrite Hgraph in Hgg. injection Hgg as <-. exact Hn. }
    exists data. split; [exact Hat|]. split; [exact Hthree|].
    split; [rewrite Hthree in Hatoms; lia | exact Hbonds]. }
  exact (conj Hget (conj Hget' (conj Hg (conj Hg' (conj Hinv (conj Hacc
           (conj Hacc'
              (conj (Hboth _ _ Hget Hg Hacc) (Hboth _ _ Hget' Hg' Hacc')))))))))
  .
Defined.


Lemma C6_witness :
  outcome train_init empty_world = inr train_dataset ∧
  outcome tensor_init empty_world = inr tensor_dataset ∧
  count_events is_augmentation (events train_init empty_world) = 1%nat ∧
  count_events is_augmentation (events tensor_init empty_world) = 1%nat ∧
  CrystDataset.scaler train_dataset = None ∧
  TensorCrystDataset.scaler tensor_dataset = None.
Proof.
  assert (outcome train_init empty_world = inr train_dataset)
    as Hd by (reflexivity).
  assert (outcome tensor_init empty_world = inr tensor_dataset)
    as Hd' by (reflexivity).
  destruct (C6_augmentation_runs_once (H := sample_collaborators) "perov" "train.csv" "train.pt" false
              "formation_energy" true false "crystalnn" 4 "scale_length"
              [sample_graph 2 4; sample_graph 3 6] true false "crystalnn" 4
              "scale_length" empty_world) as (_ & _ & Hrun & Hrun').
  destruct (Hrun train_dataset Hd)
    as (before & recs & Hev & Hbefore & _ & _ & _ & Hscaler).
  destruct (Hrun' tensor_dataset Hd') as (recs' & Hev' & _ & _ & _ & Hscaler').
  split; [exact Hd|]. split; [exact Hd'|].
  split; [|split; [|split; [exact Hscaler | exact Hscaler']]].
  - fold train_init in Hev. rewrite Hev. unfold count_events in *.
    rewrite List.filter_app, length_app, Hbefore. reflexivity.
  - fold tensor_init in Hev'. rewrite Hev'. reflexivity.
Defined.

Lemma C7_witness :
  fs (final tensor_init empty_world) = fs empty_world ∧
  count_events is_file_access (events tensor_init empty_world) = 0%nat ∧
  (∃ data, at_index (LabelFree tensor_dataset) 0 = inr data ∧ y data = None).
Proof.
  destruct (C7_label_free_touches_no_file_and_has_no_target
              (H := sample_collaborators) [sample_graph 2 4; sample_graph 3 6] true false "crystalnn" 4
              "scale_length" empty_world) as (Hfs & Hcount & _ & _ & Hy).
  split; [exact Hfs|]. split; [exact Hcount|].
  assert (∃ data, at_index (LabelFree tensor_dataset) 0 = inr data)
    as [data Hat] by (eexists; reflexivity).
  exists data. split; [exact Hat|].
  exact (Hy tensor_dataset 0 data Hat).
Defined.

(** C8, as stated, fails: the summary of the sample dataset names the
    dataset and its two paths only; none of the five configuration values
    occurs in it, and a dataset configured differently in all five has
    the same summary. *)
Lemma C8_summary_counterexample :
  summary (Labelled train_dataset) =
    inr "CrystDataset(self.name='perov', self.path='train.csv', self.save_path='train.pt')" ∧
  CrystDataset.prop train_dataset = "formation_energy" ∧
  CrystDataset.niggli train_dataset = true ∧
  CrystDataset.primitive train_dataset = false ∧
  CrystDataset.graph_method train_dataset = "crystalnn" ∧
  CrystDataset.lattice_scale_method train_dataset = "scale_length" ∧
  (∀ text, summary (Labelled train_dataset) = inr text →
     contains text "formation_energy" = false ∧
     contains text "True" = false ∧
     contains text "False" = false ∧
     contains text "crystalnn" = false ∧
     contains text "scale_length" = false) ∧
  summary (Labelled reloaded_dataset) = summary (Labelled train_dataset) ∧
  CrystDataset.prop reloaded_dataset = "band_gap" ∧
  CrystDataset.niggli reloaded_dataset = false ∧
  CrystDataset.primitive reloaded_dataset = true ∧
  CrystDataset.graph_method reloaded_dataset = "voronoi" ∧
  CrystDataset.lattice_scale_method reloaded_dataset = "scale_volume".
Proof.
  assert (summary (Labelled train_dataset) =
    inr "CrystDataset(self.name='perov', self.path='train.csv', self.save_path='train.pt')")
    as Hsummary by (reflexivity).
  split; [exact Hsummary|]. rewrite Hsummary.
  do 5 (split; [reflexivity|]).
  split; [intros text [= <-]; repeat split; reflexivity|].
  repeat split; reflexivity.
Qed.

Lemma C8_witness :
  CrystDataset.__repr__ fitted_dataset =
    (fitted_dataset,
     inr "CrystDataset(self.name='perov', self.path='train.csv', self.save_path='train.pt')") ∧
  CrystDataset.name reloaded_dataset = CrystDataset.name train_dataset ∧
  summary (Labelled reloaded_dataset) = summary (Labelled train_dataset) ∧
  CrystDataset.prop train_dataset = "formation_energy".
Proof.
  destruct (C8_summary_shows_name_and_paths_only fitted_dataset)
    as (Hrepr & _ & _).
  destruct (C8_summary_shows_name_and_paths_only train_dataset)
    as (_ & Hsame & Hkept).
  split; [exact Hrepr|]. split; [reflexivity|].
  split; [apply Hsame; reflexivity|].
  apply (Hkept "perov" "train.csv" "train.pt" false "formation_energy" true
           false "crystalnn" 4 "scale_length" empty_world train_dataset).
  reflexivity.
Defined.

Lemma C9_witness :
  (false = true ∨ fs empty_world !! "train.pt" = None) ∧
  sample_preprocess "train.csv" 4 true false "crystalnn" ["formation_energy"] =
    inr [sample_row 2 4 1 ["formation_energy"];
         sample_row 3 6 2 ["formation_energy"];
         sample_row 4 8 3 ["formation_energy"]] ∧
  fs train_world !! "train.pt" =
    Some [sample_row 2 4 1 ["formation_energy"];
          sample_row 3 6 2 ["formation_energy"];
          sample_row 4 8 3 ["formation_energy"]] ∧
  sample_row 3 6 2 ["formation_energy"] !! "scaled_lattice" = None ∧
  Forall (has_scaled_lattice "scale_length") (CrystDataset.cached_data train_dataset) ∧
  Forall (has_scaled_lattice "scale_volume") (CrystDataset.cached_data reloaded_dataset) ∧
  outcome SampleMore.nodir_init empty_world
    = inl (FileNotFoundError "nodir/train.pt") ∧
  count_events is_augmentation (events SampleMore.nodir_init empty_world)
    = 0%nat.
Proof.
  assert (false = true ∨ fs empty_world !! "train.pt" = None)
    as Hgo by (right; reflexivity).
  assert (false = true ∨ fs empty_world !! "nodir/train.pt" = None)
    as Hgo' by (right; reflexivity).
  assert (preprocess (fs empty_world) "train.csv" 4 true false "crystalnn"
            ["formation_energy"] =
    inr [sample_row 2 4 1 ["formation_energy"];
         sample_row 3 6 2 ["formation_energy"];
         sample_row 4 8 3 ["formation_energy"]])
    as Hpre by reflexivity.
  pose proof (C9_pickled_before_augmentation "perov" "train.csv" "train.pt"
                false "formation_energy" true false "crystalnn" 4
                "scale_length" empty_world _ Hgo Hpre) as Hwritten.
  pose proof (C9_pickled_before_augmentation "perov" "train.csv"
                "nodir/train.pt" false "formation_energy" true false
                "crystalnn" 4 "scale_length" empty_world _ Hgo' Hpre)
    as Hrefused.
  cbv zeta in Hwritten, Hrefused.
  change (open_wb (fs empty_world) "train.pt") with (@None PyError)
    in Hwritten.
  change (open_wb (fs empty_world) "nodir/train.pt")
    with (Some (FileNotFoundError "nodir/train.pt")) in Hrefused.
  cbv iota in Hwritten, Hrefused.
  destruct Hwritten as (Hfile & _ & _ & Hfirst & _ & Hlater).
  destruct Hrefused as (Hout & _ & Hnone).
  split; [exact Hgo|]. split; [exact Hpre|]. split; [exact Hfile|].
  split; [reflexivity|]. split; [|split; [|split; [exact Hout | exact Hnone]]].
  - apply (Hfirst train_dataset). reflexivity.
  - destruct (Hlater "perov" "train.csv" "band_gap" false true "voronoi" 1
                "scale_volume" train_world eq_refl) as (_ & Hd' & _).
    apply (Hd' reloaded_dataset). reflexivity.
Defined.

Lemma C10_witness :
  final (CrystDataset.__getitem__ 1) fitted_dataset = fitted_dataset ∧
  final (TensorCrystDataset.__getitem__ 7) tensor_dataset = tensor_dataset ∧
  outcome (a ← CrystDataset.__getitem__ 1; b ← CrystDataset.__getitem__ 1;
           mret (a, b)) fitted_dataset = inr (second_sample, second_sample).
Proof.
  destruct (C10_len_and_access_leave_dataset_unchanged fitted_dataset
              tensor_dataset 1) as ((_ & Hframe & _ & Htwice) & _).
  destruct (C10_len_and_access_leave_dataset_unchanged fitted_dataset
              tensor_dataset 7) as (_ & (_ & Hframe' & _)).
  split; [exact Hframe|]. split; [exact Hframe'|].
  unfold outcome at 1. rewrite Htwice.
  assert (outcome (CrystDataset.__getitem__ 1) fitted_dataset = inr second_sample)
    as -> by (reflexivity).
  reflexivity.
Defined.

End Concrete.

(** * Further properties of the module *)

(** ** Lists and arrays *)

Lemma list_getitem_error {A} (l : list A) (index : Z) e :
  list_getitem l index = inl e → e = IndexError.
Proof.
  unfold list_getitem. destruct (_ || _); [by intros [= <-]|].
  destruct (l !! _); [done | by intros [= <-]].
Qed.

Lemma list_getitem_total {A} (l : list A) (index : Z) :
  - Z.of_nat (length l) <= index < Z.of_nat (length l) →
  ∃ x, list_getitem l index = inr x ∧ x ∈ l.
Proof.
  intros Hin.
  destruct (list_getitem l index) as [e|x] eqn:Hget.
  - apply list_getitem_error in Hget as HE. subst e.
    apply list_getitem_index_error in Hget. lia.
  - exists x. split; [done|].
    unfold list_getitem in Hget. destruct (_ || _); [done|].
    destruct (l !! _) eqn:Hl; [|done]. injection Hget as <-.
    by eapply list_elem_of_lookup_2.
Qed.

Lemma range_length (n : Z) : length (range n) = Z.to_nat n.
Proof. unfold range. by rewrite length_fmap, length_seq. Qed.

Lemma range_lookup (n : Z) (i : nat) :
  (i < Z.to_nat n)%nat → range n !! i = Some (Z.of_nat i).
Proof.
  intros Hi. unfold range. by rewrite list_lookup_fmap, lookup_seq_lt.
Qed.

Lemma T_involutive {A} (a : ndarray2 A) : wf_array a → T (T a) = a.
Proof.
  intros Hwf. destruct a as [rs c].
  assert (∀ r, r ∈ rs → length r = c) as Hlen.
  { unfold wf_array in Hwf. by rewrite Forall_forall in Hwf. }
  unfold T at 1. f_equal.
  - change (ncols (T (Ndarray2 rs c))) with (length rs).
    apply list_eq. intros i. rewrite list_lookup_fmap.
    destruct (decide (i < length rs)%nat) as [Hi|Hi].
    + rewrite lookup_seq_lt by done. simpl.
      destruct (lookup_lt_is_Some_2 rs i Hi) as [r Hr]. rewrite Hr. f_equal.
      apply list_eq. intros j.
      rewrite (column_lookup (T (Ndarray2 rs c)) j i);
        [|by apply T_wf | done].
      destruct (decide (j < c)%nat) as [Hj|Hj].
      * rewrite item_T by done. unfold item. cbn [rows]. by rewrite Hr.
      * unfold item. cbn [T rows ncols].
        rewrite list_lookup_fmap, lookup_seq_ge by lia. simpl.
        symmetry. apply lookup_ge_None.
        rewrite (Hlen r) by (by eapply list_elem_of_lookup_2). lia.
    + rewrite lookup_seq_ge by lia. simpl.
      symmetry. apply lookup_ge_None. lia.
  - unfold nrows, T. cbn [rows ncols]. by rewrite length_fmap, length_seq.
Qed.

Lemma array_map_wf {A B} (f : A → B) (a : ndarray2 A) :
  wf_array a → wf_array (array_map f a).
Proof.
  unfold wf_array, array_map. cbn [rows ncols]. intros Hwf.
  apply Forall_fmap. eapply Forall_impl; [exact Hwf|].
  intros r Hr. simpl. by rewrite length_fmap.
Qed.

Lemma view_1_m1_wf {A} (t : list A) :
  wf_array (view_1_m1 t) ∧ shape (view_1_m1 t) = (1%nat, length t).
Proof. split; [by repeat constructor | done]. Qed.

(** ** Indexed access: errors, success, and the two classes compared *)

Section MoreAccess.
Context `{Collaborators}.

Ltac run_access :=
  cbv [outcome final CrystDataset.__getitem__ CrystDataset.scaler_transform
       TensorCrystDataset.__getitem__
       mbind Py_bind mret Py_ret gets lift raise].

Lemma graph_arrays_of_error (data_dict : CachedRecord real) e :
  graph_arrays_of data_dict = inl e → is_attribute_error e = false.
Proof. intros He. by apply graph_arrays_of_raises in He as [? _]. Qed.

(** X1.  Indexed access on the labelled dataset raises an
    [AttributeError] exactly when no scaler is attached and the index
    lies in [-len, len); the label-free dataset never raises one. *)
Theorem getitem_attribute_error_iff_unset_scaler
    (self : CrystDataset.t) (td : TensorCrystDataset.t) (index : Z) :
  let n := Z.of_nat (length (CrystDataset.cached_data self)) in
  ((∃ e, outcome (CrystDataset.__getitem__ index) self = inl e ∧
         is_attribute_error e = true) ↔
   CrystDataset.scaler self = None ∧ - n <= index < n) ∧
  ∀ e, outcome (TensorCrystDataset.__getitem__ index) td = inl e →
       is_attribute_error e = false.
Proof.
  intros n. split; [split|].
  - intros (e & Hout & Hattr). revert Hout. run_access.
    destruct (list_getitem _ index) as [e'|data_dict] eqn:Hget.
    { intros [= <-]. apply list_getitem_error in Hget. by subst e'. }
    assert (- n <= index < n) as Hin.
    { destruct (decide (index < - n ∨ n <= index)) as [Hout|]; [|lia].
      apply list_getitem_out_of_range in Hout. subst n. congruence. }
    destruct (CrystDataset.scaler self); [|done].
    unfold dict_getitem. destruct (data_dict !! _) as [value|];
      [|intros [= <-]; done].
    destruct (torch_tensor value) as [e'|tensor] eqn:Htensor.
    { intros [= <-]. apply torch_tensor_raises in Htensor. by subst e'. }
    destruct (graph_arrays_of data_dict) as [e'|g] eqn:Hg; [|done].
    intros [= <-]. apply graph_arrays_of_error in Hg. congruence.
  - intros [Hnone Hin]. exists (AttributeError "NoneType" "transform").
    split; [|done]. run_access.
    destruct (list_getitem_total (CrystDataset.cached_data self) index Hin)
      as (x & -> & _).
    by rewrite Hnone.
  - intros e. run_access.
    destruct (list_getitem _ index) as [e'|data_dict] eqn:Hget.
    { intros [= <-]. apply list_getitem_error in Hget. by subst e'. }
    destruct (graph_arrays_of data_dict) as [e'|g] eqn:Hg; [|done].
    intros [= <-]. by apply graph_arrays_of_error in Hg.
Qed.

(** X2.  With a scaler attached, access to a record that lacks the
    configured property raises [KeyError] for that property (before the
    graph arrays are looked at) and leaves the dataset unchanged. *)
Theorem getitem_missing_property_raises_key_error
    (self : CrystDataset.t) (index : Z) s data_dict :
  CrystDataset.scaler self = Some s →
  list_getitem (CrystDataset.cached_data self) index = inr data_dict →
  data_dict !! CrystDataset.prop self = None →
  CrystDataset.__getitem__ index self =
    (self, inl (KeyError (CrystDataset.prop self))).
Proof.
  intros Hs Hget Hnone. run_access.
  rewrite Hget, Hs. unfold dict_getitem. by rewrite Hnone.
Qed.

(** X3.  Access to a record without ['graph_arrays'] never returns a
    sample, in either class; on the label-free dataset the error is
    [KeyError] for that key. *)
Theorem at_index_missing_graph_arrays_fails
    (ds : Facade) (index : Z) data_dict :
  list_getitem (records ds) index = inr data_dict →
  data_dict !! "graph_arrays" = None →
  (∃ e, at_index ds index = inl e) ∧
  match ds with
  | LabelFree _ => at_index ds index = inl (KeyError "graph_arrays")
  | Labelled d =>
      is_Some (CrystDataset.scaler d) →
      numeric_under (CrystDataset.prop d) data_dict →
      at_index ds index = inl (KeyError "graph_arrays")
  end.
Proof.
  intros Hget Hnone.
  assert (graph_arrays_of data_dict = inl (KeyError "graph_arrays")) as Hg.
  { unfold graph_arrays_of, dict_getitem. by rewrite Hnone. }
  destruct ds as [d|d]; simpl in *; run_access; rewrite Hget.
  - split.
    + destruct (CrystDataset.scaler d); [|by eexists].
      destruct (dict_getitem data_dict _) as [?|value]; [by eexists|].
      destruct (torch_tensor value); [by eexists|].
      rewrite Hg. by eexists.
    + intros [s ->] (value & tensor & -> & ->). by rewrite Hg.
  - rewrite Hg. split; [by eexists | done].
Qed.

(** X4.  On a usable dataset (every record has graph arrays; for the
    labelled class a scaler is attached and every record holds a numeric
    value under the property) access succeeds at every index of
    [-len, len), and the sample carries a target exactly for the
    labelled class. *)
Theorem at_index_succeeds_on_usable (ds : Facade) (index : Z) :
  usable ds →
  - Z.of_nat (length (records ds)) <= index < Z.of_nat (length (records ds)) →
  ∃ data, at_index ds index = inr data ∧
          (is_Some (y data) ↔ ∃ d, ds = Labelled d).
Proof.
  intros [Hgraphs Hds] Hin.
  destruct (list_getitem_total (records ds) index Hin) as (data_dict & Hget & Hel).
  rewrite Forall_forall in Hgraphs.
  destruct (Hgraphs data_dict Hel) as [g Hg].
  destruct ds as [d|d]; simpl in *.
  - destruct Hds as [[s Hs] Hnum]. rewrite Forall_forall in Hnum.
    destruct (Hnum data_dict Hel) as (value & tensor & Hvalue & Htensor).
    eexists. split.
    + apply getitem_success. by exists data_dict, s, value, tensor, g.
    + simpl. split; [by exists d | by eexists].
  - eexists. split.
    + apply tensor_getitem_success. by exists data_dict, g.
    + simpl. split; [by intros [? ?] | by intros [? ?]].
Qed.

(** X5.  Over the same records, whenever the labelled dataset returns a
    sample at an index, the label-free dataset returns at that index the
    same sample without its target. *)
Theorem labelled_sample_is_label_free_sample_plus_target
    (d : CrystDataset.t) (td : TensorCrystDataset.t) (index : Z) data :
  CrystDataset.cached_data d = TensorCrystDataset.cached_data td →
  outcome (CrystDataset.__getitem__ index) d = inr data →
  outcome (TensorCrystDataset.__getitem__ index) td = inr (without_target data) ∧
  is_Some (y data).
Proof.
  intros Hsame Hat.
  apply getitem_success in Hat
    as (data_dict & s & value & tensor & g & Hget & _ & _ & _ & Hg & ->).
  split; [|by eexists].
  apply tensor_getitem_success. exists data_dict, g.
  by rewrite <- Hsame.
Qed.

(** X6.  Transposing a sample's [edge_index] back gives the edge list
    the record stores: the transpose loses nothing. *)
Theorem edge_index_transposes_back
    (ds : Facade) (index : Z) data_dict g data :
  list_getitem (records ds) index = inr data_dict →
  graph_arrays_of data_dict = inr g →
  wf_array (ga_edge_indices g) →
  at_index ds index = inr data →
  T (edge_index data) = ga_edge_indices g.
Proof.
  intros Hget Hg Hwf Hat.
  apply at_index_success in Hat
    as (data_dict' & g' & Hget' & Hg' & _ & _ & -> & _).
  rewrite Hget in Hget'. injection Hget' as <-.
  rewrite Hg in Hg'. injection Hg' as <-.
  by apply T_involutive.
Qed.

(** X7.  When the record's arrays are well formed, so are the arrays of
    the sample graph: the coordinates keep their shape, the lengths and
    the angles become single rows as long as the stored vectors, and the
    target, when present, is a single row. *)
Theorem sample_arrays_well_formed
    (ds : Facade) (index : Z) data_dict g data :
  list_getitem (records ds) index = inr data_dict →
  graph_arrays_of data_dict = inr g →
  wf_array (ga_frac_coords g) →
  wf_array (ga_edge_indices g) →
  wf_array (ga_to_jimages g) →
  at_index ds index = inr data →
  wf_array (frac_coords data) ∧
  shape (frac_coords data) = shape (ga_frac_coords g) ∧
  wf_array (lengths data) ∧
  shape (lengths data) = (1%nat, length (ga_lengths g)) ∧
  wf_array (angles data) ∧
  shape (angles data) = (1%nat, length (ga_angles g)) ∧
  wf_array (edge_index data) ∧
  wf_array (to_jimages data) ∧
  ∀ target, y data = Some target →
            tensor_wf target ∧ (tensor_shape target).1 = 1%nat.
Proof.
  intros Hget Hg Hcoords Hedges Himages Hat.
  destruct ds as [d|d]; simpl in Hat, Hget.
  - apply getitem_success in Hat
      as (data_dict' & s & value & tensor & g' & Hget' & _ & _ & _ & Hg' & ->).
    rewrite Hget in Hget'. injection Hget' as <-.
    rewrite Hg in Hg'. injection Hg' as <-. simpl.
    split; [by apply array_map_wf|].
    split; [unfold shape; by rewrite array_map_nrows|].
    split; [by repeat constructor|].
    split; [unfold shape, nrows; simpl; by rewrite length_fmap|].
    split; [by repeat constructor|].
    split; [unfold shape, nrows; simpl; by rewrite length_fmap|].
    split; [by apply T_wf|]. split; [done|].
    intros target [= <-].
    destruct (transform s tensor); simpl; split; by repeat constructor.
  - apply tensor_getitem_success in Hat as (data_dict' & g' & Hget' & Hg' & ->).
    rewrite Hget in Hget'. injection Hget' as <-.
    rewrite Hg in Hg'. injection Hg' as <-. simpl.
    split; [by apply array_map_wf|].
    split; [unfold shape; by rewrite array_map_nrows|].
    split; [by repeat constructor|].
    split; [unfold shape, nrows; simpl; by rewrite length_fmap|].
    split; [by repeat constructor|].
    split; [unfold shape, nrows; simpl; by rewrite length_fmap|].
    split; [by apply T_wf|]. split; [done|].
    intros target [=].
Qed.

Lemma string_app_cancel_r (a b t : string) :
  String.length a = String.length b → a +:+ t = b +:+ t → a = b.
Proof.
  revert b. induction a as [|c a IH]; intros [|c' b]; simpl; try done.
  intros [= Hlen] [= -> Happ]. f_equal. by apply IH.
Qed.

Lemma string_app_length (a b : string) :
  String.length (a +:+ b) = (String.length a + String.length b)%nat.
Proof. induction a; simpl; [done | by f_equal]. Qed.

(** X8.  The summary of a label-free dataset shows its record count and
    nothing else: two label-free datasets have the same summary exactly
    when they hold the same number of records. *)
Theorem label_free_summary_shows_the_length (d d' : TensorCrystDataset.t) :
  summary (LabelFree d) = summary (LabelFree d') ↔
  length (TensorCrystDataset.cached_data d) =
  length (TensorCrystDataset.cached_data d').
Proof.
  simpl. unfold outcome, TensorCrystDataset.__repr__.
  cbv [mbind Py_bind mret Py_ret gets]. simpl.
  split; [|by intros ->].
  intros [= Heq]. cbn [String.append] in Heq.
  apply (inj pretty).
  apply (string_app_cancel_r _ _ ")"); [|done].
  apply (f_equal String.length) in Heq.
  rewrite !string_app_length in Heq. simpl in Heq. lia.
Qed.

End MoreAccess.

(** ** The labelled constructor and the cache file *)

Section MoreConstructors.
Context `{Collaborators}.

(** X9.  The labelled constructor changes no file other than the one at
    [save_path]; that file is either left as it was or replaced by the
    pickle of what [preprocess] returned. *)
Theorem init_changes_no_other_file
    name path save_path (force_process : bool) prop niggli primitive
    graph_method workers method (w : World) :
  let run := CrystDataset.__init__ name path save_path force_process prop
               niggli primitive graph_method workers method in
  (∀ p, p ≠ save_path → fs (final run w) !! p = fs w !! p) ∧
  (fs (final run w) !! save_path = fs w !! save_path ∨
   ∃ recs, preprocess (fs w) path workers niggli primitive graph_method [prop]
             = inr recs ∧
           fs (final run w) !! save_path = Some (pickle_dumps recs)).
Proof.
  intros run. subst run.
  destruct (init_cases name path save_path force_process prop niggli
              primitive graph_method workers method w)
    as [(recs & _ & Hpre & _ & _ & Hfs & _)
       |[(recs & e & _ & _ & _ & _ & Hfs & _)
        |[(e & _ & _ & _ & Hfs & _)|(blob & _ & _ & Hfs & _)]]];
    rewrite Hfs.
  - split; [intros p Hp; by rewrite lookup_insert_ne|].
    right. exists recs. by rewrite lookup_insert_eq.
  - split; [done | by left].
  - split; [done | by left].
  - split; [done | by left].
Qed.

(** X10.  A construction with the force flag set makes no existence
    probe and unpickles nothing, and it ignores what is stored at
    [save_path]: when [preprocess] returns and the file can be opened,
    the file is replaced by the pickle of the returned records and the
    dataset is built from them.  Its calls and its result depend on the
    world only through what [preprocess] returns and whether the file can
    be opened. *)
Theorem forced_construction_reads_no_file
    name path save_path prop niggli primitive graph_method workers method
    (w w' : World) :
  let run := CrystDataset.__init__ name path save_path true prop
               niggli primitive graph_method workers method in
  count_events is_file_read (events run w) = 0%nat ∧
  (∀ recs,
     preprocess (fs w) path workers niggli primitive graph_method [prop]
       = inr recs →
     open_wb (fs w) save_path = None →
     fs (final run w) !! save_path = Some (pickle_dumps recs) ∧
     (∀ d, outcome run w = inr d →
           augmented method recs = inr (CrystDataset.cached_data d)) ∧
     (∀ data, augmented method recs = inr data →
              ∃ d, outcome run w = inr d ∧
                   CrystDataset.cached_data d = data)) ∧
  (preprocess (fs w') path workers niggli primitive graph_method [prop]
     = preprocess (fs w) path workers niggli primitive graph_method [prop] →
   open_wb (fs w') save_path = open_wb (fs w) save_path →
   events run w' = events run w ∧ outcome run w' = outcome run w).
Proof.
  intros run. subst run.
  assert (∀ v : World,
    events (CrystDataset.__init__ name path save_path true prop niggli
              primitive graph_method workers method) v =
      CallPreprocess path workers niggli primitive graph_method [prop] ::
      match preprocess (fs v) path workers niggli primitive graph_method
              [prop] with
      | inl _ => []
      | inr recs =>
          Print ("Dump into " +:+ save_path +:+ " ...") ::
          PickleDump save_path ::
          match open_wb (fs v) save_path with
          | Some _ => []
          | None => [CallAddScaledLatticeProp recs method]
          end
      end ∧
    outcome (CrystDataset.__init__ name path save_path true prop niggli
               primitive graph_method workers method) v =
      match preprocess (fs v) path workers niggli primitive graph_method
              [prop] with
      | inl e => inl e
      | inr recs =>
          match open_wb (fs v) save_path with
          | Some e => inl e
          | None =>
              match augmented method recs with
              | inl e => inl e
              | inr data =>
                  inr {| CrystDataset.path := path;
                         CrystDataset.save_path := save_path;
                         CrystDataset.force_process := true;
                         CrystDataset.name := name;
                         CrystDataset.prop := prop;
                         CrystDataset.niggli := niggli;
                         CrystDataset.primitive := primitive;
                         CrystDataset.graph_method := graph_method;
                         CrystDataset.lattice_scale_method := method;
                         CrystDataset.cached_data := data;
                         CrystDataset.lattice_scaler := None;
                         CrystDataset.scaler := None |}
              end
          end
      end) as Hrun.
  { intros v.
    destruct (preprocess (fs v) path workers niggli primitive graph_method
                [prop]) as [e|recs] eqn:Hpre.
    - by destruct (run_observed _ _ _ _ _
        (init_process_raises name path save_path true prop niggli primitive
           graph_method workers method v e (or_introl eq_refl) Hpre))
        as (-> & _ & ->).
    - destruct (open_wb (fs v) save_path) as [e|] eqn:Hopen.
      + by destruct (run_observed _ _ _ _ _
          (init_process_unwritable name path save_path true prop niggli
             primitive graph_method workers method v recs e
             (or_introl eq_refl) Hpre Hopen)) as (-> & _ & ->).
      + by destruct (run_observed _ _ _ _ _
          (init_process_ok name path save_path true prop niggli primitive
             graph_method workers method v recs (or_introl eq_refl)
             Hpre Hopen)) as (-> & _ & ->). }
  split; [|split].
  - destruct (Hrun w) as [-> _].
    destruct (preprocess (fs w) path workers niggli primitive graph_method
                [prop]); [done|].
    by destruct (open_wb (fs w) save_path).
  - intros recs Hpre Hopen.
    destruct (run_observed _ _ _ _ _
      (init_process_ok name path save_path true prop niggli primitive
         graph_method workers method w recs (or_introl eq_refl)
         Hpre Hopen)) as (_ & -> & ->).
    split; [by rewrite lookup_insert_eq|]. unfold augmented.
    destruct (result_mapM _ recs) as [e|data].
    + split; done.
    + split; [by intros d [= <-] | intros ? [= <-]; by eexists].
  - intros Hpre Hopen.
    destruct (Hrun w) as [-> ->]. destruct (Hrun w') as [-> ->].
    by rewrite Hpre, Hopen.
Qed.

(** X11.  When the file exists and the force flag is off, the records of
    the dataset depend on the file and the lattice-scaling policy only:
    two constructions that differ in name, source path, property,
    reduction flags, graph method and worker count obtain the same
    records, or fail with the same error, and neither calls
    [preprocess]. *)
Theorem load_ignores_source_configuration
    save_path method blob
    name1 path1 prop1 niggli1 primitive1 graph_method1 workers1 (w1 : World)
    name2 path2 prop2 niggli2 primitive2 graph_method2 workers2 (w2 : World) :
  fs w1 !! save_path = Some blob →
  fs w2 !! save_path = Some blob →
  let run1 := CrystDataset.__init__ name1 path1 save_path false prop1
                niggli1 primitive1 graph_method1 workers1 method in
  let run2 := CrystDataset.__init__ name2 path2 save_path false prop2
                niggli2 primitive2 graph_method2 workers2 method in
  (∀ d1, outcome run1 w1 = inr d1 →
     ∃ d2, outcome run2 w2 = inr d2 ∧
           CrystDataset.cached_data d2 = CrystDataset.cached_data d1) ∧
  (∀ e, outcome run1 w1 = inl e → outcome run2 w2 = inl e) ∧
  count_events is_call_preprocess (events run1 w1) = 0%nat ∧
  count_events is_call_preprocess (events run2 w2) = 0%nat.
Proof.
  intros Hfile1 Hfile2 run1 run2. subst run1 run2.
  pose proof (init_load name1 path1 save_path prop1 niggli1 primitive1
                graph_method1 workers1 method w1 blob Hfile1) as Hrun1.
  pose proof (init_load name2 path2 save_path prop2 niggli2 primitive2
                graph_method2 workers2 method w2 blob Hfile2) as Hrun2.
  destruct (pickle_loads blob) as [recs|];
    destruct (run_observed _ _ _ _ _ Hrun1) as (-> & _ & ->);
    destruct (run_observed _ _ _ _ _ Hrun2) as (-> & _ & ->);
    [|done].
  destruct (result_mapM _ recs) as [e|data]; [done|].
  split; [|done]. intros d1 [= <-]. by eexists.
Qed.

(** X12.  After a construction that returned a dataset, a construction
    that loads the file at [save_path] (force flag off, same
    lattice-scaling policy, any other configuration) returns a dataset
    with the same records, without calling [preprocess]. *)
Theorem reload_returns_the_same_records
    name path save_path (force_process : bool) prop niggli primitive
    graph_method workers method (w : World) d
    name' path' prop' niggli' primitive' graph_method' workers' (w' : World) :
  let run := CrystDataset.__init__ name path save_path force_process prop
               niggli primitive graph_method workers method in
  let rerun := CrystDataset.__init__ name' path' save_path false prop'
                 niggli' primitive' graph_method' workers' method in
  outcome run w = inr d →
  fs w' !! save_path = fs (final run w) !! save_path →
  ∃ d', outcome rerun w' = inr d' ∧
        CrystDataset.cached_data d' = CrystDataset.cached_data d ∧
        count_events is_call_preprocess (events rerun w') = 0%nat.
Proof.
  intros run rerun Hd Hfile. subst rerun.
  assert (∃ blob recs, fs w' !! save_path = Some blob ∧
            pickle_loads blob = Some recs ∧
            augmented method recs = inr (CrystDataset.cached_data d))
    as (blob & recs & Hblob & Hrecs & Haug).
  { destruct (init_cases name path save_path force_process prop niggli
                primitive graph_method workers method w)
      as [(recs & _ & _ & _ & _ & Hfs & _ & Hok & _)
         |[(recs & e & _ & _ & _ & _ & _ & _ & Hout)
          |[(e & _ & _ & _ & _ & _ & Hout)
           |(blob & _ & Hw & Hfs & _ & Hload)]]];
      subst run.
    - exists (pickle_dumps recs), recs.
      rewrite Hfile, Hfs, lookup_insert_eq.
      split; [done|]. split; [apply pickle_loads_dumps|].
      by apply Hok.
    - congruence.
    - congruence.
    - destruct (pickle_loads blob) as [recs|] eqn:Hloads.
      + destruct Hload as (_ & Hok & _).
        exists blob, recs. rewrite Hfile, Hfs. split; [done|].
        split; [done|]. by apply Hok.
      + destruct Hload as [_ Hout]. congruence. }
  pose proof (init_load name' path' save_path prop' niggli' primitive'
                graph_method' workers' method w' blob Hblob) as Hrun.
  rewrite Hrecs in Hrun.
  destruct (run_observed _ _ _ _ _ Hrun) as (-> & _ & ->).
  unfold augmented in Haug. rewrite Haug. by eexists.
Qed.

(** X13.  When the file can be written and [add_scaled_lattice_prop]
    then raises on the records just processed, the construction raises
    that error after the file has been written; every later construction
    that loads the file, with the same policy, raises it again without
    calling [preprocess]. *)
Theorem failed_augmentation_leaves_the_file
    name path save_path (force_process : bool) prop niggli primitive
    graph_method workers method (w : World) recs e
    name' path' prop' niggli' primitive' graph_method' workers' (w' : World) :
  let run := CrystDataset.__init__ name path save_path force_process prop
               niggli primitive graph_method workers method in
  let rerun := CrystDataset.__init__ name' path' save_path false prop'
                 niggli' primitive' graph_method' workers' method in
  force_process = true ∨ fs w !! save_path = None →
  preprocess (fs w) path workers niggli primitive graph_method [prop] = inr recs →
  open_wb (fs w) save_path = None →
  augmented method recs = inl e →
  fs w' !! save_path = fs (final run w) !! save_path →
  outcome run w = inl e ∧
  fs (final run w) !! save_path = Some (pickle_dumps recs) ∧
  outcome rerun w' = inl e ∧
  count_events is_call_preprocess (events rerun w') = 0%nat.
Proof.
  intros run rerun Hgo Hpre Hopen Haug Hfile. subst run rerun.
  destruct (run_observed _ _ _ _ _
    (init_process_ok name _ _ _ _ _ _ _ _ method w recs Hgo Hpre Hopen))
    as (_ & Hfs & Hout).
  rewrite Hfs, lookup_insert_eq in Hfile.
  rewrite Hfs, Hout, lookup_insert_eq. unfold augmented in Haug.
  rewrite Haug. do 2 (split; [done|]).
  pose proof (init_load name' path' save_path prop' niggli' primitive'
                graph_method' workers' method w' _ Hfile) as Hrun.
  rewrite pickle_loads_dumps in Hrun.
  destruct (run_observed _ _ _ _ _ Hrun) as (-> & _ & ->).
  by rewrite Haug.
Qed.

End MoreConstructors.

(** ** The entry point *)

Section MoreMain.
Context `{MainCollaborators}.

Lemma result_mapM_inr {A B} (f : A → Result B) (l : list A) ys :
  result_mapM f l = inr ys → Forall2 (λ x z, f x = inr z) l ys.
Proof.
  revert ys. induction l as [|x l IH]; intros ys; simpl.
  - intros [= <-]. constructor.
  - destruct (f x) as [?|z] eqn:Hx; [done|].
    destruct (result_mapM f l) as [?|zs]; [done|].
    intros [= <-]. constructor; [done | by apply IH].
Qed.

Lemma result_mapM_inl {A B} (f : A → Result B) (l : list A) e :
  result_mapM f l = inl e →
  ∃ i x, l !! i = Some x ∧ f x = inl e ∧
         ∀ j x', (j < i)%nat → l !! j = Some x' → ∃ z, f x' = inr z.
Proof.
  induction l as [|x l IH]; simpl; [done|].
  destruct (f x) as [e'|z] eqn:Hx.
  - intros [= ->]. exists 0%nat, x. split; [done|]. split; [done|]. lia.
  - destruct (result_mapM f l) as [e'|zs]; [|done].
    intros [= ->]. destruct IH as (i & x0 & Hi & Hf & Hbefore); [done|].
    exists (S i), x0. split; [done|]. split; [done|].
    intros [|j] x' Hj Hx'; simpl in Hx'.
    + injection Hx' as <-. by exists z.
    + apply (Hbefore j); [lia | done].
Qed.

Lemma comprehension_run {O A} (body : Z → Py O A) (indices : list Z) (s : O) :
  (∀ i, final (body i) s = s) →
  comprehension body indices s =
    (s, result_mapM (λ i, outcome (body i) s) indices).
Proof.
  intros Hframe. induction indices as [|i rest IH]; simpl; [done|].
  cbv [mbind Py_bind mret Py_ret]. specialize (Hframe i).
  unfold final, outcome in *.
  destruct (body i s) as [s' [e|x]]; simpl in *; subst s'; [done|].
  rewrite IH. by destruct (result_mapM _ rest).
Qed.

Lemma init_trace_extends name path save_path (force_process : bool) prop
    niggli primitive graph_method workers method (w : World) :
  let run := CrystDataset.__init__ name path save_path force_process prop
               niggli primitive graph_method workers method in
  trace (final run w) = trace w ++ events run w.
Proof.
  intros run. subst run.
  destruct (init_cases name path save_path force_process prop niggli
              primitive graph_method workers method w)
    as [(recs & _ & _ & _ & _ & _ & Htrace & _)
       |[(recs & e & _ & _ & _ & _ & _ & Htrace & _)
        |[(e & _ & _ & _ & _ & Htrace & _)
         |(blob & _ & _ & _ & Htrace & _)]]]; exact Htrace.
Qed.

Lemma getitem_error_with_scaler (self : CrystDataset.t) (index : Z) e :
  is_Some (CrystDataset.scaler self) →
  - Z.of_nat (length (CrystDataset.cached_data self)) <= index
    < Z.of_nat (length (CrystDataset.cached_data self)) →
  outcome (CrystDataset.__getitem__ index) self = inl e →
  is_attribute_error e = false ∧ is_index_error e = false.
Proof.
  intros [s Hs] Hin.
  destruct (list_getitem_total _ index Hin) as (data_dict & Hget & _).
  cbv [outcome CrystDataset.__getitem__ CrystDataset.scaler_transform
       mbind Py_bind mret Py_ret gets lift raise].
  rewrite Hget, Hs. unfold dict_getitem.
  destruct (data_dict !! CrystDataset.prop self) as [value|];
    [|by intros [= <-]].
  destruct (torch_tensor value) as [e'|tensor] eqn:Htensor.
  { intros [= <-]. by rewrite (torch_tensor_raises _ _ Htensor). }
  destruct (graph_arrays_of data_dict) as [e'|g] eqn:Hg; [|done].
  intros [= <-]. by apply (graph_arrays_of_raises data_dict).
Qed.

Lemma main_run (cfg : TrainConfig) (w : World) :
  main cfg w =
  match instantiate cfg w with
  | (w1, inl e) => (w1, inl e)
  | (w1, inr d) =>
      match get_scaler_from_data_list (CrystDataset.cached_data d)
              "scaled_lattice" with
      | inl e => (w1, inl e)
      | inr lattice_scaler =>
          match get_scaler_from_data_list (CrystDataset.cached_data d)
                  (CrystDataset.prop d) with
          | inl e => (w1, inl e)
          | inr scaler =>
              let d' := with_scalers lattice_scaler scaler d in
              ({| fs := fs w1;
                  trace := trace w1 ++
                    [Print ("CrystDataset(self.name=" +:+
                            repr_str (CrystDataset.name d) +:+
                            ", self.path=" +:+
                            repr_str (CrystDataset.path d) +:+
                            ", self.save_path=" +:+
                            repr_str (CrystDataset.save_path d) +:+ ")")] |},
               match result_mapM
                       (λ i, outcome (CrystDataset.__getitem__ i) d')
                       (range (Z.of_nat (length (CrystDataset.cached_data d))))
               with
               | inl e => inl e
               | inr data_list => from_data_list data_list
               end)
          end
      end
  end.
Proof.
  unfold main.
  cbv [mbind Py_bind lift on_object setattr_lattice_scaler setattr_scaler
       modify CrystDataset.__repr__ CrystDataset.__len__ gets mret Py_ret
       print emit].
  destruct (instantiate cfg w) as [w1 [e|d]]; [done|].
  destruct (get_scaler_from_data_list _ "scaled_lattice") as [e|ls]; [done|].
  destruct (get_scaler_from_data_list _ (CrystDataset.prop d)) as [e|s];
    [done|].
  cbn [CrystDataset.name CrystDataset.path CrystDataset.save_path
       CrystDataset.cached_data fs trace].
  rewrite comprehension_run by (intros i; apply getitem_frame).
  change (with_scalers ls s d) with
    {| CrystDataset.path := CrystDataset.path d;
       CrystDataset.save_path := CrystDataset.save_path d;
       CrystDataset.force_process := CrystDataset.force_process d;
       CrystDataset.name := CrystDataset.name d;
       CrystDataset.prop := CrystDataset.prop d;
       CrystDataset.niggli := CrystDataset.niggli d;
       CrystDataset.primitive := CrystDataset.primitive d;
       CrystDataset.graph_method := CrystDataset.graph_method d;
       CrystDataset.lattice_scale_method :=
         CrystDataset.lattice_scale_method d;
       CrystDataset.cached_data := CrystDataset.cached_data d;
       CrystDataset.lattice_scaler := Some ls;
       CrystDataset.scaler := Some s |}.
  by destruct (result_mapM _ _).
Qed.

Lemma with_scalers_fields lattice_scaler scaler (d : CrystDataset.t) :
  CrystDataset.scaler (with_scalers lattice_scaler scaler d) = Some scaler ∧
  CrystDataset.lattice_scaler (with_scalers lattice_scaler scaler d)
    = Some lattice_scaler ∧
  CrystDataset.cached_data (with_scalers lattice_scaler scaler d)
    = CrystDataset.cached_data d ∧
  CrystDataset.prop (with_scalers lattice_scaler scaler d)
    = CrystDataset.prop d.
Proof. done. Qed.

(** X14.  When [main] returns a batch, the dataset was constructed, both
    scalers were fitted on its records (the lattice scaler under
    ['scaled_lattice'], the other under the dataset's property), and the
    batch is built from exactly one sample per record, in index order,
    each being the sample of the dataset with both scalers attached. *)
Theorem main_batches_every_sample_in_order
    (cfg : TrainConfig) (w : World) batch :
  outcome (main cfg) w = inr batch →
  ∃ d lattice_scaler scaler data_list,
    outcome (instantiate cfg) w = inr d ∧
    get_scaler_from_data_list (CrystDataset.cached_data d) "scaled_lattice"
      = inr lattice_scaler ∧
    get_scaler_from_data_list (CrystDataset.cached_data d)
      (CrystDataset.prop d) = inr scaler ∧
    length data_list = length (CrystDataset.cached_data d) ∧
    (∀ i data, data_list !! i = Some data →
       at_index (Labelled (with_scalers lattice_scaler scaler d))
         (Z.of_nat i) = inr data) ∧
    from_data_list data_list = inr batch.
Proof.
  unfold outcome. rewrite main_run.
  destruct (instantiate cfg w) as [w1 [e|d]]; [done|].
  destruct (get_scaler_from_data_list _ "scaled_lattice") as [e|ls] eqn:Hls;
    [done|].
  destruct (get_scaler_from_data_list _ (CrystDataset.prop d)) as [e|s] eqn:Hs;
    [done|].
  cbn [snd].
  destruct (result_mapM _ _) as [e|data_list] eqn:Hall; [done|].
  intros Hbatch. exists d, ls, s, data_list.
  do 3 (split; [done|]).
  apply result_mapM_inr in Hall.
  split.
  - apply Forall2_length in Hall. rewrite range_length in Hall. lia.
  - split; [|done]. intros i data Hi.
    destruct (Forall2_lookup_r _ _ _ _ _ Hall Hi) as (index & Hindex & Hat).
    assert (i < Z.to_nat (Z.of_nat (length (CrystDataset.cached_data d))))%nat
      as Hlt.
    { rewrite <- range_length. by eapply lookup_lt_Some. }
    rewrite range_lookup in Hindex by done. by injection Hindex as <-.
Qed.

(** X15.  [main] touches no file beyond what the constructor does, and
    adds to the constructor's calls at most one printed line: the
    summary of the dataset, printed once both scalers are fitted. *)
Theorem main_prints_the_summary_and_touches_no_file
    (cfg : TrainConfig) (w : World) :
  fs (final (main cfg) w) = fs (final (instantiate cfg) w) ∧
  ∃ printed,
    events (main cfg) w = events (instantiate cfg) w ++ printed ∧
    (printed = [] ∨
     ∃ d lattice_scaler scaler text,
       outcome (instantiate cfg) w = inr d ∧
       get_scaler_from_data_list (CrystDataset.cached_data d)
         "scaled_lattice" = inr lattice_scaler ∧
       get_scaler_from_data_list (CrystDataset.cached_data d)
         (CrystDataset.prop d) = inr scaler ∧
       summary (Labelled (with_scalers lattice_scaler scaler d)) = inr text ∧
       printed = [Print text]).
Proof.
  pose proof (init_trace_extends (cfg_name cfg) (cfg_path cfg)
                (cfg_save_path cfg) (cfg_force_process cfg) (cfg_prop cfg)
                (cfg_niggli cfg) (cfg_primitive cfg) (cfg_graph_method cfg)
                (cfg_preprocess_workers cfg) (cfg_lattice_scale_method cfg) w)
    as Htrace.
  cbv zeta in Htrace. fold (instantiate cfg) in Htrace.
  assert (∃ l, trace (final (instantiate cfg) w) = trace w ++ l) as [l Hl]
    by (eexists; exact Htrace).
  clear Htrace. unfold events, final, outcome in *. rewrite main_run.
  destruct (instantiate cfg w) as [w1 [e|d]]; cbn [fst snd] in *.
  { split; [done|]. exists []. rewrite app_nil_r. split; [done | by left]. }
  destruct (get_scaler_from_data_list _ "scaled_lattice") as [e|ls] eqn:Hls.
  { split; [done|]. exists []. rewrite app_nil_r. split; [done | by left]. }
  destruct (get_scaler_from_data_list _ (CrystDataset.prop d)) as [e|s] eqn:Hs.
  { split; [done|]. exists []. rewrite app_nil_r. split; [done | by left]. }
  cbn [fst fs trace]. split; [done|]. eexists. split.
  - rewrite Hl, <- app_assoc, !drop_app_length. reflexivity.
  - right. exists d, ls, s. eexists. do 3 (split; [done|]).
    split; reflexivity.
Qed.

(** X16.  When [main] raises, the error is that of its first failing
    step: the construction, one of the two fits, the first sample that
    cannot be built, or the batching.  A failing sample is never due to
    an unset scaler or to an index out of range. *)
Theorem main_raises_the_first_failure
    (cfg : TrainConfig) (w : World) e :
  outcome (main cfg) w = inl e →
  outcome (instantiate cfg) w = inl e ∨
  ∃ d, outcome (instantiate cfg) w = inr d ∧
    (get_scaler_from_data_list (CrystDataset.cached_data d) "scaled_lattice"
       = inl e ∨
     ∃ lattice_scaler,
       get_scaler_from_data_list (CrystDataset.cached_data d)
         "scaled_lattice" = inr lattice_scaler ∧
       (get_scaler_from_data_list (CrystDataset.cached_data d)
          (CrystDataset.prop d) = inl e ∨
        ∃ scaler,
          get_scaler_from_data_list (CrystDataset.cached_data d)
            (CrystDataset.prop d) = inr scaler ∧
          let fitted := Labelled (with_scalers lattice_scaler scaler d) in
          ((∃ i, (i < length (CrystDataset.cached_data d))%nat ∧
                 at_index fitted (Z.of_nat i) = inl e ∧
                 is_attribute_error e = false ∧
                 is_index_error e = false ∧
                 ∀ j, (j < i)%nat →
                      ∃ data, at_index fitted (Z.of_nat j) = inr data) ∨
           (∃ data_list,
              length data_list = length (CrystDataset.cached_data d) ∧
              from_data_list data_list = inl e)))).
Proof.
  unfold outcome. rewrite main_run.
  destruct (instantiate cfg w) as [w1 [e'|d]]; cbn [snd].
  { intros [= ->]. by left. }
  intros Hout. right. exists d. split; [done|].
  destruct (get_scaler_from_data_list _ "scaled_lattice") as [e'|ls] eqn:Hls.
  { injection Hout as ->. by left. }
  right. exists ls. split; [done|].
  destruct (get_scaler_from_data_list _ (CrystDataset.prop d)) as [e'|s] eqn:Hs.
  { injection Hout as ->. by left. }
  right. exists s. split; [done|]. cbv zeta. cbn [snd] in Hout.
  destruct (result_mapM _ _) as [e'|data_list] eqn:Hall.
  - injection Hout as ->. left.
    apply result_mapM_inl in Hall as (i & index & Hindex & Hat & Hbefore).
    assert (i < Z.to_nat (Z.of_nat (length (CrystDataset.cached_data d))))%nat
      as Hlt.
    { rewrite <- range_length. by eapply lookup_lt_Some. }
    rewrite range_lookup in Hindex by done. injection Hindex as <-.
    exists i. split; [lia|]. split; [done|].
    destruct (getitem_error_with_scaler
                (with_scalers ls s d) (Z.of_nat i) e) as [Hattr Hidx];
      [by eexists | simpl; lia | done |].
    do 2 (split; [done|]).
    intros j Hj. apply (Hbefore j (Z.of_nat j)); [done|].
    apply range_lookup. lia.
  - right. exists data_list. split; [|done].
    apply result_mapM_inr, Forall2_length in Hall.
    rewrite range_length in Hall. lia.
Qed.

End MoreMain.

(** ** The further properties on the concrete instantiation *)

Section MoreConcrete.
Import Sample SampleMain SampleMore.

Lemma getitem_missing_property_witness :
  CrystDataset.scaler stale_dataset = Some (0, 1)%Q ∧
  list_getitem (CrystDataset.cached_data stale_dataset) 0 = inr first_record ∧
  first_record !! CrystDataset.prop stale_dataset = None ∧
  CrystDataset.__getitem__ 0 stale_dataset =
    (stale_dataset, inl (KeyError "band_gap")).
Proof.
  assert (CrystDataset.scaler stale_dataset = Some (0, 1)%Q)
    as Hs by reflexivity.
  assert (list_getitem (CrystDataset.cached_data stale_dataset) 0
            = inr first_record) as Hget by reflexivity.
  assert (first_record !! CrystDataset.prop stale_dataset = None)
    as Hnone by reflexivity.
  exact (conj Hs (conj Hget (conj Hnone
           (getitem_missing_property_raises_key_error
              stale_dataset 0 _ first_record Hs Hget Hnone)))).
Defined.

Lemma at_index_missing_graph_arrays_witness :
  list_getitem (records (LabelFree bare_dataset)) 0 = inr bare_record ∧
  bare_record !! "graph_arrays" = None ∧
  at_index (LabelFree bare_dataset) 0 = inl (KeyError "graph_arrays").
Proof.
  assert (list_getitem (records (LabelFree bare_dataset)) 0 = inr bare_record)
    as Hget by reflexivity.
  assert (bare_record !! "graph_arrays" = None) as Hnone by reflexivity.
  destruct (at_index_missing_graph_arrays_fails
              (LabelFree bare_dataset) 0 bare_record Hget Hnone) as [_ Herr].
  exact (conj Hget (conj Hnone Herr)).
Defined.

Lemma at_index_succeeds_on_usable_witness :
  usable (Labelled fitted_dataset) ∧
  (- 3 <= -2 < 3) ∧
  ∃ data, at_index (Labelled fitted_dataset) (-2) = inr data ∧
          (is_Some (y data) ↔ ∃ d, Labelled fitted_dataset = Labelled d).
Proof.
  assert (usable (Labelled fitted_dataset)) as Husable.
  { split; [|split; [by eexists|]].
    - repeat constructor; eexists; reflexivity.
    - repeat constructor; eexists _, _; split; reflexivity. }
  assert (- 3 <= -2 < 3) as Hin by lia.
  exact (conj Husable (conj Hin
           (at_index_succeeds_on_usable (Labelled fitted_dataset) (-2)
              Husable Hin))).
Defined.

Lemma labelled_sample_is_label_free_sample_plus_target_witness :
  CrystDataset.cached_data fitted_dataset =
    TensorCrystDataset.cached_data tensor_view ∧
  outcome (CrystDataset.__getitem__ 1) fitted_dataset = inr second_sample ∧
  outcome (TensorCrystDataset.__getitem__ 1) tensor_view =
    inr (without_target second_sample).
Proof.
  assert (CrystDataset.cached_data fitted_dataset =
            TensorCrystDataset.cached_data tensor_view) as Hsame by reflexivity.
  assert (outcome (CrystDataset.__getitem__ 1) fitted_dataset
            = inr second_sample) as Hat by reflexivity.
  destruct (labelled_sample_is_label_free_sample_plus_target
              fitted_dataset tensor_view 1 second_sample Hsame Hat)
    as [Hfree _].
  exact (conj Hsame (conj Hat Hfree)).
Defined.

Lemma edge_index_transposes_back_witness :
  list_getitem (records (Labelled fitted_dataset)) 1 = inr second_record ∧
  graph_arrays_of second_record = inr second_graph ∧
  wf_array (ga_edge_indices second_graph) ∧
  at_index (Labelled fitted_dataset) 1 = inr second_sample ∧
  T (edge_index second_sample) = ga_edge_indices second_graph.
Proof.
  assert (list_getitem (records (Labelled fitted_dataset)) 1 = inr second_record)
    as Hget by reflexivity.
  assert (graph_arrays_of second_record = inr second_graph)
    as Hg by reflexivity.
  assert (wf_array (ga_edge_indices second_graph))
    as Hwf by (repeat constructor).
  assert (at_index (Labelled fitted_dataset) 1 = inr second_sample)
    as Hat by reflexivity.
  exact (conj Hget (conj Hg (conj Hwf (conj Hat
           (edge_index_transposes_back (Labelled fitted_dataset) 1
              second_record second_graph second_sample Hget Hg Hwf Hat))))).
Defined.

Lemma sample_arrays_well_formed_witness :
  list_getitem (records (Labelled fitted_dataset)) 1 = inr second_record ∧
  graph_arrays_of second_record = inr second_graph ∧
  wf_array (ga_frac_coords second_graph) ∧
  wf_array (ga_edge_indices second_graph) ∧
  wf_array (ga_to_jimages second_graph) ∧
  at_index (Labelled fitted_dataset) 1 = inr second_sample ∧
  shape (lengths second_sample) = (1%nat, 3%nat) ∧
  wf_array (edge_index second_sample).
Proof.
  assert (list_getitem (records (Labelled fitted_dataset)) 1 = inr second_record)
    as Hget by reflexivity.
  assert (graph_arrays_of second_record = inr second_graph)
    as Hg by reflexivity.
  assert (wf_array (ga_frac_coords second_graph))
    as Hcoords by (repeat constructor).
  assert (wf_array (ga_edge_indices second_graph))
    as Hedges by (repeat constructor).
  assert (wf_array (ga_to_jimages second_graph))
    as Himages by (repeat constructor).
  assert (at_index (Labelled fitted_dataset) 1 = inr second_sample)
    as Hat by reflexivity.
  destruct (sample_arrays_well_formed (Labelled fitted_dataset) 1
              second_record second_graph second_sample
              Hget Hg Hcoords Hedges Himages Hat)
    as (_ & _ & _ & Hlengths & _ & _ & Hindex & _).
  exact (conj Hget (conj Hg (conj Hcoords (conj Hedges (conj Himages
           (conj Hat (conj Hlengths Hindex))))))).
Defined.

Lemma load_ignores_source_configuration_witness :
  fs train_world !! "train.pt" = Some cached_blob ∧
  ∃ d1 d2,
    outcome (CrystDataset.__init__ "other" "elsewhere.csv" "train.pt" false
               "formation_energy" true false "crystalnn" 4 "scale_volume")
      train_world = inr d1 ∧
    outcome reload_init train_world = inr d2 ∧
    CrystDataset.cached_data d2 = CrystDataset.cached_data d1.
Proof.
  assert (fs train_world !! "train.pt" = Some cached_blob)
    as Hfile by reflexivity.
  destruct (load_ignores_source_configuration (H := sample_collaborators)
              "train.pt" "scale_volume" cached_blob
              "other" "elsewhere.csv" "formation_energy" true false
              "crystalnn" 4 train_world
              "perov" "train.csv" "band_gap" false true "voronoi" 1
              train_world Hfile Hfile) as (Hsame & _).
  split; [exact Hfile|].
  assert (∃ d1,
    outcome (CrystDataset.__init__ "other" "elsewhere.csv" "train.pt" false
               "formation_energy" true false "crystalnn" 4 "scale_volume")
      train_world = inr d1) as [d1 Hd1] by (eexists; reflexivity).
  destruct (Hsame d1 Hd1) as (d2 & Hd2 & Hrecs).
  exact (ex_intro _ d1 (ex_intro _ d2 (conj Hd1 (conj Hd2 Hrecs)))).
Defined.

Lemma reload_returns_the_same_records_witness :
  outcome train_init empty_world = inr train_dataset ∧
  fs train_world !! "train.pt" = fs (final train_init empty_world) !! "train.pt" ∧
  ∃ d', outcome (CrystDataset.__init__ "perov" "train.csv" "train.pt" false
                   "band_gap" false true "voronoi" 1 "scale_length")
          train_world = inr d' ∧
        CrystDataset.cached_data d' = CrystDataset.cached_data train_dataset.
Proof.
  assert (outcome train_init empty_world = inr train_dataset)
    as Hd by reflexivity.
  assert (fs train_world !! "train.pt" =
            fs (final train_init empty_world) !! "train.pt")
    as Hfile by reflexivity.
  destruct (reload_returns_the_same_records (H := sample_collaborators)
              "perov" "train.csv" "train.pt" false "formation_energy" true
              false "crystalnn" 4 "scale_length" empty_world train_dataset
              "perov" "train.csv" "band_gap" false true "voronoi" 1
              train_world Hd Hfile) as (d' & Hd' & Hrecs & _).
  split; [exact Hd|]. split; [exact Hfile|].
  exact (ex_intro _ d' (conj Hd' Hrecs)).
Defined.

Lemma forced_construction_reads_no_file_witness :
  fs train_world !! "train.pt" = Some cached_blob ∧
  preprocess (Collaborators := sample_collaborators) (fs train_world)
    "train.csv" 4 true false "crystalnn" ["band_gap"] = inr band_gap_rows ∧
  open_wb (Collaborators := sample_collaborators) (fs train_world) "train.pt"
    = None ∧
  fs (final forced_init train_world) !! "train.pt" = Some band_gap_rows ∧
  (∃ d, outcome forced_init train_world = inr d ∧
        length (CrystDataset.cached_data d) = 3%nat) ∧
  events forced_init empty_world = events forced_init train_world.
Proof.
  assert (fs train_world !! "train.pt" = Some cached_blob)
    as Hfile by reflexivity.
  assert (preprocess (Collaborators := sample_collaborators) (fs train_world)
            "train.csv" 4 true false "crystalnn" ["band_gap"]
            = inr band_gap_rows) as Hpre by reflexivity.
  assert (open_wb (Collaborators := sample_collaborators) (fs train_world)
            "train.pt" = None) as Hopen by reflexivity.
  destruct (forced_construction_reads_no_file (H := sample_collaborators)
              "perov" "train.csv" "train.pt" "band_gap" true false
              "crystalnn" 4 "scale_length" train_world empty_world)
    as (_ & Hown & Hsame).
  destruct (Hown band_gap_rows Hpre Hopen) as (Hnew & _ & Hret).
  destruct (Hsame eq_refl eq_refl) as [Hev _].
  assert (∃ data, augmented (H := sample_collaborators) "scale_length"
                    band_gap_rows = inr data ∧ length data = 3%nat)
    as (data & Hdata & Hlen) by (eexists; split; reflexivity).
  destruct (Hret data Hdata) as (d & Hd & Hrecs).
  refine (conj Hfile (conj Hpre (conj Hopen (conj Hnew (conj _ Hev))))).
  exists d. split; [exact Hd|]. by rewrite Hrecs.
Defined.

Lemma failed_augmentation_leaves_the_file_witness :
  (false = true ∨ fs SampleBare.bare_world !! "train.pt" = None) ∧
  preprocess (Collaborators := SampleBare.bare_collaborators)
    (fs SampleBare.bare_world)
    "train.csv" 4 true false "crystalnn" ["formation_energy"]
    = inr [bare_record] ∧
  open_wb (Collaborators := SampleBare.bare_collaborators)
    (fs SampleBare.bare_world) "train.pt" = None ∧
  augmented (H := SampleBare.bare_collaborators) "scale_length" [bare_record]
    = inl (KeyError "graph_arrays") ∧
  outcome SampleBare.bare_init SampleBare.bare_world
    = inl (KeyError "graph_arrays") ∧
  fs (final SampleBare.bare_init SampleBare.bare_world) !! "train.pt"
    = Some [bare_record] ∧
  outcome SampleBare.bare_init (final SampleBare.bare_init SampleBare.bare_world)
    = inl (KeyError "graph_arrays").
Proof.
  assert (false = true ∨ fs SampleBare.bare_world !! "train.pt" = None)
    as Hgo by (right; reflexivity).
  assert (preprocess (Collaborators := SampleBare.bare_collaborators)
            (fs SampleBare.bare_world)
            "train.csv" 4 true false "crystalnn" ["formation_energy"]
            = inr [bare_record]) as Hpre by reflexivity.
  assert (open_wb (Collaborators := SampleBare.bare_collaborators)
            (fs SampleBare.bare_world) "train.pt" = None)
    as Hopen by reflexivity.
  assert (augmented (H := SampleBare.bare_collaborators) "scale_length"
            [bare_record] = inl (KeyError "graph_arrays"))
    as Haug by reflexivity.
  destruct (failed_augmentation_leaves_the_file
              (H := SampleBare.bare_collaborators)
              "perov" "train.csv" "train.pt" false "formation_energy" true
              false "crystalnn" 4 "scale_length" SampleBare.bare_world
              [bare_record] (KeyError "graph_arrays")
              "perov" "train.csv" "formation_energy" true false "crystalnn" 4
              (final SampleBare.bare_init SampleBare.bare_world)
              Hgo Hpre Hopen Haug eq_refl) as (Hout & Hfile & Hagain & _).
  exact (conj Hgo (conj Hpre (conj Hopen (conj Haug (conj Hout
           (conj Hfile Hagain)))))).
Defined.

Lemma main_batches_every_sample_in_order_witness :
  outcome (main train_cfg) empty_world = inr train_batch ∧
  length train_batch = 3%nat ∧
  train_batch !! 1%nat = Some second_sample.
Proof.
  assert (outcome (main train_cfg) empty_world = inr train_batch)
    as Hbatch by reflexivity.
  destruct (main_batches_every_sample_in_order (H0 := sample_main)
              train_cfg empty_world
              train_batch Hbatch)
    as (d & ls & s & data_list & Hd & _ & _ & Hlen & _ & Hfrom).
  injection Hfrom as ->.
  assert (d = train_dataset) as ->.
  { assert (outcome (instantiate train_cfg) empty_world = inr train_dataset)
      as Hre by reflexivity.
    congruence. }
  exact (conj Hbatch (conj Hlen eq_refl)).
Defined.

Lemma main_raises_the_first_failure_witness :
  outcome (main stale_cfg) train_world = inl (KeyError "band_gap") ∧
  ∃ d, outcome (instantiate stale_cfg) train_world = inr d ∧
       get_scaler_from_data_list (CrystDataset.cached_data d) "band_gap"
         = inl (KeyError "band_gap").
Proof.
  assert (outcome (main stale_cfg) train_world = inl (KeyError "band_gap"))
    as Hout by reflexivity.
  split; [exact Hout|].
  destruct (main_raises_the_first_failure (H0 := sample_main)
              stale_cfg train_world
              (KeyError "band_gap") Hout)
    as [Hinit|(d & Hd & Hrest)].
  - exfalso. revert Hinit.
    assert (outcome (instantiate stale_cfg) train_world = inr reloaded_dataset)
      as -> by reflexivity.
    discriminate.
  - exists d. split; [exact Hd|].
    assert (d = reloaded_dataset) as ->.
    { assert (outcome (instantiate stale_cfg) train_world
                = inr reloaded_dataset) as Hre by reflexivity.
      congruence. }
    reflexivity.
Defined.

End MoreConcrete.
